(** * TracesOfBreakfast: the staged pancake pipeline of [main.go]

    A shallow embedding of [ServeBreakfast], [FlipPancakes], [SyrupPancakes]
    (both renditions found in the repository) and [EatPancakes], followed by
    the properties of the pipeline.

    Conventions of the embedding.

    - The [breakfast] package is an external dependency.  Its item type and
      the three methods the pipeline calls on an item are variables of the
      section below.  A method with a pointer receiver mutates the slice
      element in place, so [Flip] and [Syrup] return the element after the
      call together with the error they report ([None] is Go's [nil]).
    - A slice is a [list]; [for p := range cakes] is a recursion over the
      elements that carries the index [p].
    - Every call that leaves the function (logger, tracer, channel, item
      method) is recorded, in program order, in a list of [Effect]s.  The
      producer goroutine has a trace of its own.
    - [defer] is written out: the deferred calls are appended, last
      registered first, to the trace of every path that returns.
    - A [select] is resolved by the run-time system from what the rest of the
      program is doing.  That information is the [SelectEnv] the producer is
      given for each iteration. *)

From Stdlib Require Import List String Arith Bool Lia.
Import ListNotations.
Open Scope string_scope.
Open Scope list_scope.

(** ** The [select] statement of the producer

    [select { case out <- cakes[p]: ; case <-ctx.Done(): return }]

    [out] is unbuffered: the send can proceed only while a receiver waits on
    the channel.  The receive from [ctx.Done()] can proceed only once the
    context is cancelled.  When both can proceed Go picks one of them by a
    pseudo-random choice; when neither can, the goroutine stays blocked. *)

Inductive SelectCase : Type :=
| SendCase
| DoneCase.

Record SelectEnv : Type := {
  receiver_ready : bool;   (* a receiver is waiting on [out] *)
  ctx_done : bool;         (* [ctx.Done()] is closed *)
  pick : SelectCase        (* the run-time's choice when both can proceed *)
}.

Definition select (e : SelectEnv) : option SelectCase :=
  match receiver_ready e, ctx_done e with
  | true, true => Some (pick e)
  | true, false => Some SendCase
  | false, true => Some DoneCase
  | false, false => None
  end.

(** How the producer goroutine stopped. *)
Inductive Exit : Type :=
| Exhausted   (* the [range] loop ran out of items *)
| EarlyExit   (* [return] under [len(mistakes) == 0] *)
| Cancelled   (* [return] in the [ctx.Done()] case *)
| Blocked.    (* still parked in the [select]: it has not returned *)

Definition exited (x : Exit) : bool :=
  match x with
  | Blocked => false
  | _ => true
  end.

(** ** Contexts

    Modelled from the spec: the [context], opentracing and go-log libraries
    are outside the sources.  Of a [context.Context] the pipeline uses the
    span and the event in progress that it carries.  Cancellation is observed
    only through [ctx.Done()], which is part of [SelectEnv]. *)

Record Context : Type := {
  ctx_span : option string;
  ctx_event : option string
}.

Definition Background : Context :=
  {| ctx_span := None; ctx_event := None |}.

Definition ContextWithSpan (ctx : Context) (span : string) : Context :=
  {| ctx_span := Some span; ctx_event := ctx_event ctx |}.

(** ** A concrete kitchen

    An instance of the item type, used to run the pipeline on explicit
    batches.  A cake counts the calls made on it and carries the outcome each
    method will report. *)

Module Griddle.

Record Cake : Type := {
  flips : nat;
  syrups : nat;
  sticks : bool;    (* [Flip] reports an error *)
  scorched : bool;  (* [IsBurnt] answers true *)
  soggy : bool      (* [Syrup] reports an error *)
}.

Definition Flip (c : Cake) : Cake * option string :=
  ({| flips := S (flips c); syrups := syrups c; sticks := sticks c;
      scorched := scorched c; soggy := soggy c |},
   if sticks c then Some "stuck to the pan" else None).

Definition IsBurnt (c : Cake) : bool := scorched c.

Definition Syrup (c : Cake) : Cake * option string :=
  ({| flips := flips c; syrups := S (syrups c); sticks := sticks c;
      scorched := scorched c; soggy := soggy c |},
   if soggy c then Some "soggy" else None).

Definition fresh : Cake :=
  {| flips := 0; syrups := 0; sticks := false; scorched := false;
     soggy := false |}.

Definition sticky : Cake :=
  {| flips := 0; syrups := 0; sticks := true; scorched := false;
     soggy := false |}.

Definition charred : Cake :=
  {| flips := 0; syrups := 0; sticks := false; scorched := true;
     soggy := false |}.

Definition drenched : Cake :=
  {| flips := 0; syrups := 0; sticks := false; scorched := false;
     soggy := true |}.

Definition MakePancakes (n : nat) : list Cake := repeat fresh n.

(** [n] cakes, all fresh but the one at index [bad]. *)
Definition MakeWith (bad : nat) (c : Cake) (n : nat) : list Cake :=
  map (fun i => if Nat.eqb i bad then c else fresh) (seq 0 n).

(** No receiver, context cancelled: only the [Done] case can proceed. *)
Definition abandoned : SelectEnv :=
  {| receiver_ready := false; ctx_done := true; pick := DoneCase |}.

(** A receiver waits and the context is live. *)
Definition draining : SelectEnv :=
  {| receiver_ready := true; ctx_done := false; pick := SendCase |}.

(** A receiver waits, the context is already cancelled, and the run-time
    picks the send. *)
Definition late_send : SelectEnv :=
  {| receiver_ready := true; ctx_done := true; pick := SendCase |}.

End Griddle.

Section Kitchen.

(** ** The [breakfast] package *)

Variable Pancake : Type.
Variable PkgError : Type.
Variable Flip : Pancake -> Pancake * option PkgError.
Variable IsBurnt : Pancake -> bool.
Variable Syrup : Pancake -> Pancake * option PkgError.
Variable MakePancakes : nat -> list Pancake.

(** An [error] value is either one the package handed back or one that the
    pipeline allocates itself with [errors.New]; the latter is a fresh
    value, never identical to one received from a method call. *)
Inductive error : Type :=
| FromPackage (e : PkgError)
| ErrorsNew (msg : string).

Definition flipped (c : Pancake) : Pancake := fst (Flip c).
Definition flip_ok (c : Pancake) : bool :=
  match snd (Flip c) with None => true | Some _ => false end.
Definition syruped (c : Pancake) : Pancake := fst (Syrup c).
Definition syrup_ok (c : Pancake) : bool :=
  match snd (Syrup c) with None => true | Some _ => false end.

(** ** Effects *)

Inductive Effect : Type :=
| ContextWithCancel                 (* context.WithCancel(context.Background()) *)
| StartSpan (name : string)         (* opentracing.StartSpan *)
| AttachSpan (name : string)        (* opentracing.ContextWithSpan *)
| CallMakePancakes (n : nat)        (* breakfast.MakePancakes *)
| EventBegin (name : string)        (* log.EventBegin / log.EventBeginInContext *)
| SetError (name : string) (e : error)   (* eip.SetError *)
| EventDone (name : string)         (* eip.Done / the Done inside MaybeFinishEvent *)
| CallFlip (p : nat)                (* cakes[p].Flip() *)
| TimeSleep                         (* time.Sleep(1 * time.Second) *)
| CallIsBurnt (p : nat)             (* cakes[p].IsBurnt() *)
| GoProducer                        (* go func() { ... }() *)
| CallSyrup (p : nat)               (* cakes[p].Syrup() *)
| FmtErrorf (msg : string)          (* fmt.Errorf: builds a value, result dropped *)
| ChanSend (p : nat)                (* out <- cakes[p] went through *)
| CtxDoneRecv                       (* <-ctx.Done() went through *)
| CloseOut                          (* close(out) *)
| CallEatPancakes                   (* EatPancakes(ready) *)
| SpanFinish (name : string)        (* rootSpan.Finish() *)
| CancelCtx.                        (* cancel() *)

Definition is_done (name : string) (x : Effect) : bool :=
  match x with
  | EventDone n => String.eqb n name
  | _ => false
  end.

(** Calls on the go-log logger: the only effects that write a log record. *)
Definition is_log_record (x : Effect) : bool :=
  match x with
  | EventBegin _ | SetError _ _ | EventDone _ => true
  | _ => false
  end.

Definition is_flip (x : Effect) : bool :=
  match x with CallFlip _ => true | _ => false end.

Definition is_stage2 (x : Effect) : bool :=
  match x with
  | EventBegin n => String.eqb n "PancakeReady"
  | GoProducer | CallSyrup _ | ChanSend _ | CloseOut | CallEatPancakes => true
  | _ => false
  end.

Definition count (f : Effect -> bool) (t : list Effect) : nat :=
  List.length (filter f t).

(** ** Stage 1: [FlipPancakes] *)

Record Stage1 : Type := {
  s1_cakes : list Pancake;    (* the slice when the function returns *)
  s1_err : option error;      (* the named result [err] *)
  s1_trace : list Effect
}.

(** [for p := range cakes { if err := cakes[p].Flip(); err != nil { return err } }] *)
Fixpoint flip_loop (p : nat) (todo : list Pancake)
  : list Pancake * list Effect * option PkgError :=
  match todo with
  | [] => ([], [], None)
  | c :: rest =>
      let (c', err) := Flip c in
      match err with
      | Some e => (c' :: rest, [CallFlip p], Some e)
      | None =>
          let '(rest', t, r) := flip_loop (S p) rest in
          (c' :: rest', CallFlip p :: t, r)
      end
  end.

(** [for p := range cakes { if cakes[p].IsBurnt() { return errors.New(...) } }] *)
Fixpoint burnt_loop (p : nat) (todo : list Pancake) : list Effect * bool :=
  match todo with
  | [] => ([], false)
  | c :: rest =>
      if IsBurnt c then ([CallIsBurnt p], true)
      else let (t, b) := burnt_loop (S p) rest in (CallIsBurnt p :: t, b)
  end.

Definition FlipPancakes (ctx : Context) (cakes : list Pancake) : Stage1 :=
  let eip := "FlipPancakes" in
  (* the function body, up to its [return] *)
  let '(cakes1, t1, r1) := flip_loop 0 cakes in
  let '(t, err) :=
    match r1 with
    | Some e => (t1, Some (FromPackage e))
    | None =>
        let (t2, burnt) := burnt_loop 0 cakes1 in
        (t1 ++ TimeSleep :: t2,
         if burnt then Some (ErrorsNew "Burnt Pancake") else None)
    end in
  (* defer func() { if err != nil { eip.SetError(err) }; eip.Done() }() *)
  let deferred :=
    match err with
    | Some e => [SetError eip e; EventDone eip]
    | None => [EventDone eip]
    end in
  {| s1_cakes := cakes1; s1_err := err;
     s1_trace := EventBegin eip :: t ++ deferred |}.

(** ** Stage 2: [SyrupPancakes], first rendition (inline goroutine) *)

Record Producer : Type := {
  p_cakes : list Pancake;      (* the slice, as the goroutine left it *)
  p_emitted : list Pancake;    (* items received from [out], in order *)
  p_mistakes : list Pancake;   (* the local [mistakes] slice *)
  p_trace : list Effect;
  p_exit : Exit
}.

(** The goroutine stops in the current iteration. *)
Definition stop (cakes emitted mistakes : list Pancake) (t : list Effect)
    (x : Exit) : Producer :=
  {| p_cakes := cakes; p_emitted := emitted; p_mistakes := mistakes;
     p_trace := t; p_exit := x |}.

(** The current iteration left [c] in the slice, emitted [emitted] and did
    [t]; [r] is the rest of the loop. *)
Definition next (c : Pancake) (emitted : list Pancake) (t : list Effect)
    (r : Producer) : Producer :=
  {| p_cakes := c :: p_cakes r; p_emitted := emitted ++ p_emitted r;
     p_mistakes := p_mistakes r; p_trace := t ++ p_trace r;
     p_exit := p_exit r |}.

(** The [for p := range cakes] loop of the goroutine; [mistakes] is the
    local slice as it stands when iteration [p] starts. *)
Fixpoint syrup_loop (env : nat -> SelectEnv) (p : nat)
    (todo mistakes : list Pancake) : Producer :=
  match todo with
  | [] => stop [] [] mistakes [] Exhausted
  | c :: rest =>
      let (c', err) := Syrup c in
      match err with
      | Some _ =>
          (* fmt.Errorf(...); mistakes = append(mistakes, cakes[p]); continue *)
          next c' [] [CallSyrup p; FmtErrorf "Ohh no, soggy pancakes!"]
            (syrup_loop env (S p) rest (mistakes ++ [c']))
      | None =>
          match select (env p) with
          | None => stop (c' :: rest) [] mistakes [CallSyrup p] Blocked
          | Some DoneCase =>
              stop (c' :: rest) [] mistakes [CallSyrup p; CtxDoneRecv] Cancelled
          | Some SendCase =>
              if (List.length mistakes =? 0)%nat
              then stop (c' :: rest) [c'] mistakes
                     [CallSyrup p; ChanSend p] EarlyExit
              else next c' [c'] [CallSyrup p; ChanSend p]
                     (syrup_loop env (S p) rest mistakes)
          end
      end
  end.

(** Modelled from the spec: go-log is a library outside the sources.
    [log.EventBeginInContext(ctx, name)] opens the event [name] and returns a
    context that carries a reference to it. *)
Definition EventBeginInContext (ctx : Context) (name : string) : Context :=
  {| ctx_span := ctx_span ctx; ctx_event := Some name |}.

(** Modelled from the spec: go-log is a library outside the sources.
    [logging.MaybeFinishEvent(ctx)] closes the event the context carries, if
    it carries one, and does nothing otherwise. *)
Definition MaybeFinishEvent (ctx : Context) : list Effect :=
  match ctx_event ctx with
  | Some name => [EventDone name]
  | None => []
  end.

(** The deferred calls of the goroutine, run when (and only when) its body
    returns: [close(out)] was deferred last, so it runs first. *)
Definition run_deferred (ctx : Context) (r : Producer) : Producer :=
  if exited (p_exit r)
  then {| p_cakes := p_cakes r; p_emitted := p_emitted r;
          p_mistakes := p_mistakes r;
          p_trace := p_trace r ++ CloseOut :: MaybeFinishEvent ctx;
          p_exit := p_exit r |}
  else r.

Record Stage2 : Type := {
  s2_trace : list Effect;   (* what the caller's goroutine did before [return out] *)
  s2_out : Producer         (* the goroutine behind the returned channel *)
}.

Definition SyrupPancakes (ctx : Context) (env : nat -> SelectEnv)
    (cakes : list Pancake) : Stage2 :=
  let ctx := EventBeginInContext ctx "PancakeReady" in
  {| s2_trace := [EventBegin "PancakeReady"; GoProducer];
     s2_out := run_deferred ctx (syrup_loop env 0 cakes []) |}.

(** ** Stage 2, second rendition: [SyrupPancakes] calling [syrupPancakes] *)

Fixpoint syrup_loop' (env : nat -> SelectEnv) (p : nat)
    (todo mistakes : list Pancake) : Producer :=
  match todo with
  | [] => stop [] [] mistakes [] Exhausted
  | c :: rest =>
      let (c', err) := Syrup c in
      match err with
      | Some _ =>
          next c' [] [CallSyrup p; FmtErrorf "Ohh no, soggy pancakes!"]
            (syrup_loop' env (S p) rest (mistakes ++ [c']))
      | None =>
          match select (env p) with
          | None => stop (c' :: rest) [] mistakes [CallSyrup p] Blocked
          | Some DoneCase =>
              stop (c' :: rest) [] mistakes [CallSyrup p; CtxDoneRecv] Cancelled
          | Some SendCase =>
              if (List.length mistakes =? 0)%nat
              then stop (c' :: rest) [c'] mistakes
                     [CallSyrup p; ChanSend p] EarlyExit
              else next c' [c'] [CallSyrup p; ChanSend p]
                     (syrup_loop' env (S p) rest mistakes)
          end
      end
  end.

Definition syrupPancakes (ctx : Context) (env : nat -> SelectEnv)
    (cakes : list Pancake) : Stage2 :=
  {| s2_trace := [GoProducer];
     s2_out := run_deferred ctx (syrup_loop' env 0 cakes []) |}.

Definition SyrupPancakes' (ctx : Context) (env : nat -> SelectEnv)
    (cakes : list Pancake) : Stage2 :=
  let ctx := EventBeginInContext ctx "PancakeReady" in
  let r := syrupPancakes ctx env cakes in
  {| s2_trace := EventBegin "PancakeReady" :: s2_trace r; s2_out := s2_out r |}.

(** ** The consumer and the coordinator *)

(** [func EatPancakes(<-chan breakfast.Pancake) { return }]: the channel
    parameter has no name and the body performs no receive.  The function
    is described by whether it waits on the channel when the producer's
    iteration [p] reaches its [select]: it never does. *)
Definition EatPancakes (p : nat) : bool := false.

(** What the producer started by [ServeBreakfast] meets at its [select]:
    [out] is handed to [EatPancakes] only, and [defer cancel()] closes
    [ctx.Done()] once [ServeBreakfast] returns. *)
Definition served_env (p : nat) : SelectEnv :=
  {| receiver_ready := EatPancakes p; ctx_done := true; pick := DoneCase |}.

Record Served : Type := {
  sb_ret : option error;
  sb_trace : list Effect;        (* the calling goroutine, deferred calls included *)
  sb_stage2 : option Stage2      (* [None]: [SyrupPancakes] was not called *)
}.

Definition ServeBreakfast : Served :=
  let ctx := Background in
  let rootSpan := "ServeHotCakes" in
  let ctx := ContextWithSpan ctx rootSpan in
  let cakes := MakePancakes 3 in
  let setup :=
    [ContextWithCancel; StartSpan rootSpan; AttachSpan rootSpan;
     CallMakePancakes 3] in
  (* defer cancel() was registered first, defer rootSpan.Finish() second *)
  let deferred := [SpanFinish rootSpan; CancelCtx] in
  let s1 := FlipPancakes ctx cakes in
  match s1_err s1 with
  | Some err =>
      {| sb_ret := Some err;
         sb_trace := setup ++ s1_trace s1 ++ deferred;
         sb_stage2 := None |}
  | None =>
      let ready := SyrupPancakes ctx served_env (s1_cakes s1) in
      {| sb_ret := None;
         sb_trace :=
           setup ++ s1_trace s1 ++ s2_trace ready ++ CallEatPancakes :: deferred;
         sb_stage2 := Some ready |}
  end.

(** ** Properties of the loops of stage 1 *)

Lemma flip_loop_all_ok (todo : list Pancake) :
  forall p, forallb flip_ok todo = true ->
  flip_loop p todo
  = (map flipped todo, map CallFlip (seq p (List.length todo)), None).
Proof.
  induction todo as [|c rest IH]; intros p Hok; simpl in *.
  - reflexivity.
  - apply andb_prop in Hok. destruct Hok as [Hc Hrest].
    unfold flip_ok in Hc. unfold flipped at 1.
    destruct (Flip c) as [c' [e|]]; simpl in *; [discriminate|].
    rewrite (IH (S p) Hrest). reflexivity.
Qed.

Lemma flip_loop_first_failure (todo : list Pancake) :
  forall p k c e,
  forallb flip_ok (firstn k todo) = true ->
  nth_error todo k = Some c ->
  snd (Flip c) = Some e ->
  flip_loop p todo
  = (map flipped (firstn (S k) todo) ++ skipn (S k) todo,
     map CallFlip (seq p (S k)), Some e).
Proof.
  induction todo as [|c0 rest IH]; intros p k c e Hok Hk He.
  - destruct k; discriminate.
  - destruct k as [|k].
    + simpl in Hk. injection Hk as ->.
      simpl. unfold flipped. destruct (Flip c) as [c' r]; simpl in *.
      subst r. reflexivity.
    + simpl in Hk, Hok. apply andb_prop in Hok. destruct Hok as [Hc Hrest].
      specialize (IH (S p) k c e Hrest Hk He).
      cbn [flip_loop]. rewrite IH.
      unfold flip_ok in Hc. cbn [firstn skipn map app seq].
      unfold flipped at 2.
      destruct (Flip c0) as [c' [e0|]]; simpl in *; [discriminate|].
      reflexivity.
Qed.

Lemma burnt_loop_clean (todo : list Pancake) :
  forall p, existsb IsBurnt todo = false ->
  burnt_loop p todo = (map CallIsBurnt (seq p (List.length todo)), false).
Proof.
  induction todo as [|c rest IH]; intros p H; simpl in *.
  - reflexivity.
  - apply orb_false_elim in H. destruct H as [Hc Hrest].
    rewrite Hc, (IH (S p) Hrest). reflexivity.
Qed.

Lemma burnt_loop_found (todo : list Pancake) :
  forall p, existsb IsBurnt todo = true ->
  exists k, k < List.length todo /\
    burnt_loop p todo = (map CallIsBurnt (seq p (S k)), true).
Proof.
  induction todo as [|c rest IH]; intros p H; simpl in *.
  - discriminate.
  - destruct (IsBurnt c) eqn:Hc.
    + exists 0. split; [lia | reflexivity].
    + simpl in H. destruct (IH (S p) H) as [k [Hk Hrun]].
      exists (S k). split; [lia|]. rewrite Hrun. reflexivity.
Qed.

Lemma count_app (f : Effect -> bool) (t u : list Effect) :
  count f (t ++ u) = count f t + count f u.
Proof. unfold count. rewrite filter_app, length_app. reflexivity. Qed.

Lemma count_none (f : Effect -> bool) (t : list Effect) :
  (forall x, In x t -> f x = false) -> count f t = 0.
Proof.
  induction t as [|x t IH]; intros H; [reflexivity|].
  unfold count in *. simpl. rewrite (H x (or_introl eq_refl)).
  apply IH. intros y Hy. apply H. right. exact Hy.
Qed.

Lemma In_map_seq (A : Type) (f : nat -> A) (x : A) (p n : nat) :
  In x (map f (seq p n)) -> exists j, p <= j < p + n /\ x = f j.
Proof.
  intros H. apply in_map_iff in H. destruct H as [j [Hj Hin]].
  apply in_seq in Hin. exists j. split; [lia | congruence].
Qed.

(** ** Stage 1 *)

Lemma FlipPancakes_on_failure (ctx : Context) (cakes : list Pancake)
    (k : nat) (c : Pancake) (e : PkgError) :
  forallb flip_ok (firstn k cakes) = true ->
  nth_error cakes k = Some c ->
  snd (Flip c) = Some e ->
  FlipPancakes ctx cakes
  = {| s1_cakes := map flipped (firstn (S k) cakes) ++ skipn (S k) cakes;
       s1_err := Some (FromPackage e);
       s1_trace :=
         EventBegin "FlipPancakes" :: map CallFlip (seq 0 (S k))
         ++ [SetError "FlipPancakes" (FromPackage e);
             EventDone "FlipPancakes"] |}.
Proof.
  intros Hok Hk He. unfold FlipPancakes.
  rewrite (flip_loop_first_failure cakes 0 k c e Hok Hk He). reflexivity.
Qed.

Lemma FlipPancakes_all_flipped (ctx : Context) (cakes : list Pancake) :
  forallb flip_ok cakes = true ->
  FlipPancakes ctx cakes
  = {| s1_cakes := map flipped cakes;
       s1_err :=
         if snd (burnt_loop 0 (map flipped cakes))
         then Some (ErrorsNew "Burnt Pancake") else None;
       s1_trace :=
         EventBegin "FlipPancakes"
         :: (map CallFlip (seq 0 (List.length cakes))
             ++ TimeSleep :: fst (burnt_loop 0 (map flipped cakes)))
         ++ (if snd (burnt_loop 0 (map flipped cakes))
             then [SetError "FlipPancakes" (ErrorsNew "Burnt Pancake");
                   EventDone "FlipPancakes"]
             else [EventDone "FlipPancakes"]) |}.
Proof.
  intros Hok. unfold FlipPancakes.
  rewrite (flip_loop_all_ok cakes 0 Hok).
  destruct (burnt_loop 0 (map flipped cakes)) as [t2 [|]]; reflexivity.
Qed.

(** C2.  When item [k] is the first one whose [Flip] fails, [FlipPancakes]
    returns that very error at once: the calls it made are the [Flip]s of
    items [0..k] followed by the deferred tagging and closing of the event
    (no sleep, no burn check), no item after [k] has [Flip] invoked or is
    changed, and the items before [k] stay flipped. *)
Theorem FlipPancakes_fail_fast (ctx : Context) (cakes : list Pancake)
    (k : nat) (c : Pancake) (e : PkgError) :
  forallb flip_ok (firstn k cakes) = true ->
  nth_error cakes k = Some c ->
  snd (Flip c) = Some e ->
  s1_err (FlipPancakes ctx cakes) = Some (FromPackage e)
  /\ s1_trace (FlipPancakes ctx cakes)
     = EventBegin "FlipPancakes" :: map CallFlip (seq 0 (S k))
       ++ [SetError "FlipPancakes" (FromPackage e); EventDone "FlipPancakes"]
  /\ (forall j, k < j -> ~ In (CallFlip j) (s1_trace (FlipPancakes ctx cakes)))
  /\ (forall j, k < j ->
        nth_error (s1_cakes (FlipPancakes ctx cakes)) j = nth_error cakes j)
  /\ (forall j, j < k ->
        nth_error (s1_cakes (FlipPancakes ctx cakes)) j
        = option_map flipped (nth_error cakes j)).
Proof.
  intros Hok Hk He.
  rewrite (FlipPancakes_on_failure ctx cakes k c e Hok Hk He).
  cbn [s1_err s1_cakes s1_trace].
  assert (Hlen : k < List.length cakes).
  { apply nth_error_Some. rewrite Hk. discriminate. }
  assert (Hpre : List.length (map flipped (firstn (S k) cakes)) = S k).
  { rewrite length_map, length_firstn. lia. }
  repeat split.
  - intros j Hj [Hin|[Hin|Hin]]; try discriminate.
    + injection Hin as <-. lia.
    + apply in_app_or in Hin. destruct Hin as [Hin|[Hin|[Hin|[]]]];
        try discriminate.
      apply In_map_seq in Hin. destruct Hin as [i [Hi Heq]].
      injection Heq as ->. lia.
  - intros j Hj. rewrite nth_error_app2 by (rewrite Hpre; lia).
    rewrite Hpre, nth_error_skipn. f_equal. lia.
  - intros j Hj. rewrite nth_error_app1 by (rewrite Hpre; lia).
    rewrite nth_error_map, nth_error_firstn.
    destruct (Nat.ltb_spec j (S k)); [reflexivity | lia].
Qed.

(** C3.  When every [Flip] succeeds and some flipped item is burnt, then
    [FlipPancakes] returns the error made by [errors.New("Burnt Pancake")],
    which is no error of a [Flip] call; every one of the N items was
    flipped, once and in order, before the sleep, and the burn check that
    follows the sleep stops at the first burnt item. *)
Theorem FlipPancakes_burnt_batch (ctx : Context) (cakes : list Pancake) :
  forallb flip_ok cakes = true ->
  existsb IsBurnt (map flipped cakes) = true ->
  s1_err (FlipPancakes ctx cakes) = Some (ErrorsNew "Burnt Pancake")
  /\ (forall e, s1_err (FlipPancakes ctx cakes) <> Some (FromPackage e))
  /\ s1_cakes (FlipPancakes ctx cakes) = map flipped cakes
  /\ filter is_flip (s1_trace (FlipPancakes ctx cakes))
     = map CallFlip (seq 0 (List.length cakes))
  /\ exists k, k < List.length cakes
     /\ s1_trace (FlipPancakes ctx cakes)
        = EventBegin "FlipPancakes"
          :: map CallFlip (seq 0 (List.length cakes))
          ++ TimeSleep :: map CallIsBurnt (seq 0 (S k))
          ++ [SetError "FlipPancakes" (ErrorsNew "Burnt Pancake");
              EventDone "FlipPancakes"].
Proof.
  intros Hok Hburnt.
  rewrite (FlipPancakes_all_flipped ctx cakes Hok).
  destruct (burnt_loop_found (map flipped cakes) 0 Hburnt) as [k [Hk Hrun]].
  rewrite length_map in Hk. rewrite Hrun. cbn [fst snd s1_err s1_cakes s1_trace].
  assert (Hflips : forall n p t,
    (forall x, In x t -> is_flip x = false) ->
    filter is_flip (map CallFlip (seq p n) ++ t) = map CallFlip (seq p n)).
  { intros n p t Ht. rewrite filter_app.
    assert (H1 : filter is_flip (map CallFlip (seq p n)) = map CallFlip (seq p n)).
    { generalize p. induction n as [|n IH]; intros q; simpl; [reflexivity|].
      rewrite IH. reflexivity. }
    assert (H2 : filter is_flip t = []).
    { induction t as [|x t IH]; [reflexivity|]. simpl.
      rewrite (Ht x (or_introl eq_refl)). apply IH.
      intros y Hy. apply Ht. right. exact Hy. }
    rewrite H1, H2. apply app_nil_r. }
  split; [reflexivity|]. split; [intros e; discriminate|].
  split; [reflexivity|]. split.
  - cbn [filter is_flip]. rewrite <- app_assoc. apply Hflips.
    intros x [<-|Hin]; [reflexivity|].
    apply in_app_or in Hin. destruct Hin as [Hin|[<-|[<-|[]]]]; try reflexivity.
    apply In_map_seq in Hin. destruct Hin as [j [_ ->]]. reflexivity.
  - exists k. split; [exact Hk|]. rewrite <- app_assoc. reflexivity.
Qed.

(** ** Properties of the producer loop *)

(** The effects an iteration of the loop can have. *)
Definition is_loop_effect (x : Effect) : bool :=
  match x with
  | CallSyrup _ | FmtErrorf _ | ChanSend _ | CtxDoneRecv => true
  | _ => false
  end.

(** One iteration: the outcome of [Syrup], then of the [select], then of
    the test on [len(mistakes)]. *)
Ltac iteration c Hs :=
  cbn [syrup_loop];
  destruct (Syrup c) as [? [?|]] eqn:Hs;
  [ | destruct (select _) as [[|]|];
      [ destruct (_ =? _)%nat eqn:? | | ] ].

Lemma syrup_loop_effects (env : nat -> SelectEnv) (todo : list Pancake) :
  forall p mistakes x,
  In x (p_trace (syrup_loop env p todo mistakes)) -> is_loop_effect x = true.
Proof.
  induction todo as [|c rest IH]; intros p mistakes x; [intros []|].
  iteration c Hs; cbn [p_trace next stop app]; intros Hin;
    repeat (destruct Hin as [<-|Hin]; [reflexivity|]);
    try (exact (IH _ _ _ Hin)); destruct Hin.
Qed.

Lemma syrup_loop_count (f : Effect -> bool) (env : nat -> SelectEnv)
    (todo : list Pancake) (p : nat) (mistakes : list Pancake) :
  (forall x, is_loop_effect x = true -> f x = false) ->
  count f (p_trace (syrup_loop env p todo mistakes)) = 0.
Proof.
  intros Hf. apply count_none. intros x Hin. apply Hf.
  exact (syrup_loop_effects env todo p mistakes x Hin).
Qed.

(** The two loops are the same function. *)
Lemma syrup_loop'_eq (env : nat -> SelectEnv) (todo : list Pancake) :
  forall p mistakes,
  syrup_loop' env p todo mistakes = syrup_loop env p todo mistakes.
Proof.
  induction todo as [|c rest IH]; intros p mistakes; [reflexivity|].
  cbn [syrup_loop syrup_loop']. rewrite ?IH. reflexivity.
Qed.

(** An iteration starts by calling [Syrup] on its item. *)
Lemma syrup_loop_first_call (env : nat -> SelectEnv) (c : Pancake)
    (rest : list Pancake) (p : nat) (mistakes : list Pancake) :
  In (CallSyrup p) (p_trace (syrup_loop env p (c :: rest) mistakes)).
Proof.
  iteration c Hs; left; reflexivity.
Qed.

(** Once [mistakes] is non-empty it stays so, and the loop has no early
    exit left. *)
Lemma syrup_loop_with_mistakes (env : nat -> SelectEnv) (todo : list Pancake) :
  forall p mistakes, mistakes <> [] ->
  p_exit (syrup_loop env p todo mistakes) <> EarlyExit
  /\ (exists more, p_mistakes (syrup_loop env p todo mistakes) = mistakes ++ more)
  /\ (forall q, In (ChanSend q) (p_trace (syrup_loop env p todo mistakes)) ->
        S q < p + List.length todo ->
        In (CallSyrup (S q)) (p_trace (syrup_loop env p todo mistakes)))
  /\ (p_exit (syrup_loop env p todo mistakes) = Exhausted ->
        forall q, p <= q < p + List.length todo ->
        In (CallSyrup q) (p_trace (syrup_loop env p todo mistakes))).
Proof.
  induction todo as [|c rest IH]; intros p mistakes Hne.
  - cbn. repeat split; try discriminate.
    + exists []. symmetry. apply app_nil_r.
    + intros q [].
    + intros _ q Hq. lia.
  - assert (Hlen : (List.length mistakes =? 0)%nat = false).
    { destruct mistakes; [contradiction | reflexivity]. }
    assert (Hne' : forall c', mistakes ++ [c'] <> []).
    { intros c' H. apply app_eq_nil in H. destruct H. discriminate. }
    cbn [syrup_loop]. destruct (Syrup c) as [c' [e|]] eqn:Hs.
    + destruct (IH (S p) (mistakes ++ [c']) (Hne' c'))
        as [Hx [[more Hm] [Hsend Hall]]].
      cbn [p_exit p_mistakes p_trace next app List.length].
      split; [exact Hx|]. split.
      { exists (c' :: more). rewrite Hm, <- app_assoc. reflexivity. }
      split.
      * intros q [Heq|[Heq|Hin]] Hq; try discriminate.
        right. right. apply Hsend; [exact Hin | lia].
      * intros Hex q Hq. destruct (Nat.eq_dec q p) as [->|Hqp];
          [left; reflexivity|].
        right. right. apply Hall; [exact Hex | lia].
    + destruct (select (env p)) as [[|]|].
      * rewrite Hlen.
        destruct (IH (S p) mistakes Hne) as [Hx [[more Hm] [Hsend Hall]]].
        cbn [p_exit p_mistakes p_trace next app List.length].
        split; [exact Hx|]. split; [exists more; exact Hm|]. split.
        -- intros q [Heq|[Heq|Hin]] Hq; try discriminate.
           ++ injection Heq as <-. right. right.
              destruct rest as [|c1 rest1]; [cbn in Hq; lia|].
              apply syrup_loop_first_call.
           ++ right. right. apply Hsend; [exact Hin | lia].
        -- intros Hex q Hq. destruct (Nat.eq_dec q p) as [->|Hqp];
             [left; reflexivity|].
           right. right. apply Hall; [exact Hex | lia].
      * cbn. repeat split; try discriminate.
        -- exists []. symmetry. apply app_nil_r.
        -- intros q [H|[H|[]]]; discriminate.
      * cbn. repeat split; try discriminate.
        -- exists []. symmetry. apply app_nil_r.
        -- intros q [H|[]]; discriminate.
Qed.

Lemma syrup_loop_cancel_wins (env : nat -> SelectEnv) (todo : list Pancake) :
  (forall p, select (env p) = Some DoneCase) ->
  forall p mistakes,
  p_emitted (syrup_loop env p todo mistakes) = []
  /\ p_exit (syrup_loop env p todo mistakes)
     = if existsb syrup_ok todo then Cancelled else Exhausted.
Proof.
  intros Hdone. induction todo as [|c rest IH]; intros p mistakes.
  - split; reflexivity.
  - cbn [syrup_loop existsb]. unfold syrup_ok at 1.
    destruct (Syrup c) as [c' [e|]]; cbn [snd orb].
    + destruct (IH (S p) (mistakes ++ [c'])) as [Hem Hex].
      cbn [p_emitted p_exit next app]. split; assumption.
    + rewrite Hdone. split; reflexivity.
Qed.

Lemma syrup_loop_no_send (env : nat -> SelectEnv) (todo : list Pancake) :
  (forall p, select (env p) = Some DoneCase) ->
  forall p mistakes q,
  ~ In (ChanSend q) (p_trace (syrup_loop env p todo mistakes)).
Proof.
  intros Hdone. induction todo as [|c rest IH]; intros p mistakes q;
    [intros []|].
  cbn [syrup_loop]. destruct (Syrup c) as [c' [e|]].
  - cbn [p_trace next app]. intros [H|[H|H]]; try discriminate.
    exact (IH _ _ _ H).
  - rewrite Hdone. cbn. intros [H|[H|[]]]; discriminate.
Qed.

Lemma run_deferred_trace (ctx : Context) (r : Producer) :
  p_trace (run_deferred ctx r)
  = p_trace r
    ++ (if exited (p_exit r) then CloseOut :: MaybeFinishEvent ctx else []).
Proof.
  unfold run_deferred. destruct (exited (p_exit r)); cbn [p_trace].
  - reflexivity.
  - symmetry. apply app_nil_r.
Qed.

Lemma run_deferred_state (ctx : Context) (r : Producer) :
  p_cakes (run_deferred ctx r) = p_cakes r
  /\ p_emitted (run_deferred ctx r) = p_emitted r
  /\ p_mistakes (run_deferred ctx r) = p_mistakes r
  /\ p_exit (run_deferred ctx r) = p_exit r.
Proof.
  unfold run_deferred. destruct (exited (p_exit r)); repeat split.
Qed.

Lemma SyrupPancakes_out (ctx : Context) (env : nat -> SelectEnv)
    (cakes : list Pancake) :
  s2_out (SyrupPancakes ctx env cakes)
  = run_deferred (EventBeginInContext ctx "PancakeReady")
      (syrup_loop env 0 cakes []).
Proof. reflexivity. Qed.

Lemma SyrupPancakes_trace (ctx : Context) (env : nat -> SelectEnv)
    (cakes : list Pancake) :
  p_trace (s2_out (SyrupPancakes ctx env cakes))
  = p_trace (syrup_loop env 0 cakes [])
    ++ (if exited (p_exit (syrup_loop env 0 cakes []))
        then [CloseOut; EventDone "PancakeReady"] else []).
Proof. rewrite SyrupPancakes_out. apply run_deferred_trace. Qed.

(** The stream is closed exactly when the goroutine has returned. *)
Lemma SyrupPancakes_closed (ctx : Context) (env : nat -> SelectEnv)
    (cakes : list Pancake) :
  In CloseOut (p_trace (s2_out (SyrupPancakes ctx env cakes))) ->
  exited (p_exit (s2_out (SyrupPancakes ctx env cakes))) = true.
Proof.
  rewrite SyrupPancakes_trace, SyrupPancakes_out.
  destruct (run_deferred_state (EventBeginInContext ctx "PancakeReady")
              (syrup_loop env 0 cakes [])) as [_ [_ [_ ->]]].
  intros Hin. apply in_app_or in Hin. destruct Hin as [Hin|Hin].
  - apply syrup_loop_effects in Hin. discriminate.
  - destruct (exited _); [reflexivity | destruct Hin].
Qed.

(** ** Stage 2 *)

(** C1, as the code has it.  For a non-empty batch in which every [Syrup]
    succeeds the stream carries at most one item, and no item after the
    first is sent or even has [Syrup] invoked.  When the first [select]
    takes its send case the stream emits exactly the first item and is then
    closed (the early exit); when it takes the [ctx.Done()] case the stream
    is closed with nothing emitted. *)
Theorem SyrupPancakes_all_ok (ctx : Context) (env : nat -> SelectEnv)
    (c : Pancake) (rest : list Pancake) :
  forallb syrup_ok (c :: rest) = true ->
  (List.length (p_emitted (s2_out (SyrupPancakes ctx env (c :: rest)))) <= 1
   /\ p_cakes (s2_out (SyrupPancakes ctx env (c :: rest))) = syruped c :: rest
   /\ forall q,
        In (CallSyrup q) (p_trace (s2_out (SyrupPancakes ctx env (c :: rest))))
        \/ In (ChanSend q) (p_trace (s2_out (SyrupPancakes ctx env (c :: rest))))
        -> q = 0)
  /\ (select (env 0) = Some SendCase ->
      p_emitted (s2_out (SyrupPancakes ctx env (c :: rest))) = [syruped c]
      /\ p_exit (s2_out (SyrupPancakes ctx env (c :: rest))) = EarlyExit
      /\ p_trace (s2_out (SyrupPancakes ctx env (c :: rest)))
         = [CallSyrup 0; ChanSend 0; CloseOut; EventDone "PancakeReady"])
  /\ (select (env 0) = Some DoneCase ->
      p_emitted (s2_out (SyrupPancakes ctx env (c :: rest))) = []
      /\ p_exit (s2_out (SyrupPancakes ctx env (c :: rest))) = Cancelled
      /\ p_trace (s2_out (SyrupPancakes ctx env (c :: rest)))
         = [CallSyrup 0; CtxDoneRecv; CloseOut; EventDone "PancakeReady"]).
Proof.
  intros Hok. cbn [forallb] in Hok. apply andb_prop in Hok.
  destruct Hok as [Hc _]. unfold syrup_ok in Hc. unfold syruped.
  unfold SyrupPancakes. cbn [s2_out syrup_loop].
  destruct (Syrup c) as [c' [e|]]; cbn [fst snd] in *; [discriminate|].
  destruct (select (env 0)) as [[|]|]; cbn.
  - split; [|split; [intros _; repeat split | discriminate]].
    split; [lia|]. split; [reflexivity|].
    intros q [[H|[H|[H|[H|[]]]]]|[H|[H|[H|[H|[]]]]]];
      try discriminate; injection H as <-; reflexivity.
  - split; [|split; [discriminate | intros _; repeat split]].
    split; [lia|]. split; [reflexivity|].
    intros q [[H|[H|[H|[H|[]]]]]|[H|[H|[H|[H|[]]]]]];
      try discriminate; injection H as <-; reflexivity.
  - split; [|split; discriminate].
    split; [lia|]. split; [reflexivity|].
    intros q [[H|[]]|[H|[]]]; try discriminate; injection H as <-; reflexivity.
Qed.

(** C5.  When [Syrup] fails on the first item, that item (as [Syrup] left
    it) is the first entry of [mistakes]; the loop goes on to the second
    item; no send is followed by the early exit: after each send the next
    item, if there is one, has [Syrup] called; and a closed stream means the
    goroutine returned from the [ctx.Done()] case or after the loop ran
    through the whole batch, every item of which then had [Syrup] called. *)
Theorem SyrupPancakes_first_fails (ctx : Context) (env : nat -> SelectEnv)
    (c : Pancake) (rest : list Pancake) :
  syrup_ok c = false ->
  (exists more,
     p_mistakes (s2_out (SyrupPancakes ctx env (c :: rest))) = syruped c :: more)
  /\ (rest <> [] ->
      In (CallSyrup 1) (p_trace (s2_out (SyrupPancakes ctx env (c :: rest)))))
  /\ p_exit (s2_out (SyrupPancakes ctx env (c :: rest))) <> EarlyExit
  /\ (forall q,
        In (ChanSend q) (p_trace (s2_out (SyrupPancakes ctx env (c :: rest)))) ->
        S q < List.length (c :: rest) ->
        In (CallSyrup (S q)) (p_trace (s2_out (SyrupPancakes ctx env (c :: rest)))))
  /\ (In CloseOut (p_trace (s2_out (SyrupPancakes ctx env (c :: rest)))) ->
      p_exit (s2_out (SyrupPancakes ctx env (c :: rest))) = Cancelled
      \/ (p_exit (s2_out (SyrupPancakes ctx env (c :: rest))) = Exhausted
          /\ forall q, q < List.length (c :: rest) ->
             In (CallSyrup q)
                (p_trace (s2_out (SyrupPancakes ctx env (c :: rest)))))).
Proof.
  intros Hc.
  pose proof (SyrupPancakes_closed ctx env (c :: rest)) as Hclosed.
  revert Hclosed. rewrite SyrupPancakes_trace, SyrupPancakes_out.
  destruct (run_deferred_state (EventBeginInContext ctx "PancakeReady")
              (syrup_loop env 0 (c :: rest) [])) as [_ [_ [-> ->]]].
  unfold syrup_ok in Hc. unfold syruped. cbn [syrup_loop].
  destruct (Syrup c) as [c' [e|]]; cbn [fst snd] in *; [|discriminate].
  assert (Hne : [c'] <> []) by discriminate.
  destruct (syrup_loop_with_mistakes env rest 1 [c'] Hne)
    as [Hx [[more Hm] [Hsend Hall]]].
  cbn [p_exit p_mistakes p_trace next app List.length]. intros Hclosed.
  split; [exists more; exact Hm|]. split; [|split; [exact Hx|split]].
  - intros Hrest. destruct rest as [|c1 rest1]; [contradiction|].
    right. right. apply in_or_app. left. apply syrup_loop_first_call.
  - intros q [H|[H|Hin]] Hq; try discriminate.
    apply in_app_or in Hin. destruct Hin as [Hin|Hin].
    + right. right. apply in_or_app. left. apply Hsend; [exact Hin | lia].
    + destruct (exited _); [|destruct Hin].
      destruct Hin as [H|[H|[]]]; discriminate.
  - intros Hin. specialize (Hclosed Hin).
    destruct (p_exit (syrup_loop env 1 rest [c'])) eqn:Hexit;
      try discriminate; try contradiction.
    + right. split; [reflexivity|]. intros q Hq.
      destruct q as [|q]; [left; reflexivity|].
      right. right. apply in_or_app. left.
      apply Hall; [reflexivity | lia].
    + left. reflexivity.
Qed.

(** C10.  The second rendition, in which [SyrupPancakes] opens the event and
    hands the context to [syrupPancakes], behaves as the first one: same
    effects of the caller, and a goroutine with the same slice, emissions,
    [mistakes], trace and exit. *)
Theorem SyrupPancakes_renditions_agree (ctx : Context)
    (env : nat -> SelectEnv) (cakes : list Pancake) :
  SyrupPancakes' ctx env cakes = SyrupPancakes ctx env cakes.
Proof.
  unfold SyrupPancakes', syrupPancakes, SyrupPancakes. cbn [s2_trace s2_out].
  rewrite syrup_loop'_eq. reflexivity.
Qed.

(** ** The event of each stage *)

Definition is_stage1_call (x : Effect) : bool :=
  match x with
  | CallFlip _ | TimeSleep | CallIsBurnt _ => true
  | _ => false
  end.

Lemma flip_loop_effects (todo : list Pancake) :
  forall p x, In x (snd (fst (flip_loop p todo))) -> is_stage1_call x = true.
Proof.
  induction todo as [|c rest IH]; intros p x; [intros []|].
  cbn [flip_loop]. destruct (Flip c) as [c' [e|]].
  - intros [<-|[]]. reflexivity.
  - specialize (IH (S p) x).
    destruct (flip_loop (S p) rest) as [[rest' t] r].
    intros [<-|Hin]; [reflexivity | exact (IH Hin)].
Qed.

Lemma burnt_loop_effects (todo : list Pancake) :
  forall p x, In x (fst (burnt_loop p todo)) -> is_stage1_call x = true.
Proof.
  induction todo as [|c rest IH]; intros p x; [intros []|].
  cbn [burnt_loop]. destruct (IsBurnt c).
  - intros [<-|[]]. reflexivity.
  - specialize (IH (S p) x). destruct (burnt_loop (S p) rest) as [t b].
    intros [<-|Hin]; [reflexivity | exact (IH Hin)].
Qed.

(** The trace of [FlipPancakes]: the event is opened, the body makes item
    calls only, and the deferred function tags (when there is an error) and
    closes. *)
Lemma FlipPancakes_shape (ctx : Context) (cakes : list Pancake) :
  exists body,
    (forall x, In x body -> is_stage1_call x = true)
    /\ s1_trace (FlipPancakes ctx cakes)
       = EventBegin "FlipPancakes" :: body
         ++ match s1_err (FlipPancakes ctx cakes) with
            | Some e => [SetError "FlipPancakes" e; EventDone "FlipPancakes"]
            | None => [EventDone "FlipPancakes"]
            end.
Proof.
  unfold FlipPancakes.
  pose proof (flip_loop_effects cakes 0) as H1.
  destruct (flip_loop 0 cakes) as [[cakes1 t1] [e|]]; cbn [fst snd] in H1.
  - exists t1. split; [exact H1 | reflexivity].
  - pose proof (burnt_loop_effects cakes1 0) as H2.
    destruct (burnt_loop 0 cakes1) as [t2 b]; cbn [fst snd] in H2.
    exists (t1 ++ TimeSleep :: t2). split.
    + intros x Hin. apply in_app_or in Hin.
      destruct Hin as [Hin|[<-|Hin]]; auto.
    + destruct b; reflexivity.
Qed.

(** C4.  [FlipPancakes] closes its event exactly once on each of its
    returns, as the last thing it does, and an error it returns is set on
    the event just before; the goroutine of [SyrupPancakes] (in either
    rendition) closes its event exactly once when it has returned, by
    whichever exit, and never otherwise. *)
Theorem event_closed_exactly_once (ctx : Context) (env : nat -> SelectEnv)
    (cakes : list Pancake) :
  count (is_done "FlipPancakes") (s1_trace (FlipPancakes ctx cakes)) = 1
  /\ (exists t,
        s1_trace (FlipPancakes ctx cakes)
        = t ++ match s1_err (FlipPancakes ctx cakes) with
               | Some e => [SetError "FlipPancakes" e; EventDone "FlipPancakes"]
               | None => [EventDone "FlipPancakes"]
               end
        /\ count (is_done "FlipPancakes") t = 0
        /\ count is_log_record t = 1)
  /\ count (is_done "PancakeReady")
       (s2_trace (SyrupPancakes ctx env cakes)
        ++ p_trace (s2_out (SyrupPancakes ctx env cakes)))
     = (if exited (p_exit (s2_out (SyrupPancakes ctx env cakes)))
        then 1 else 0)
  /\ count (is_done "PancakeReady")
       (s2_trace (SyrupPancakes' ctx env cakes)
        ++ p_trace (s2_out (SyrupPancakes' ctx env cakes)))
     = (if exited (p_exit (s2_out (SyrupPancakes' ctx env cakes)))
        then 1 else 0).
Proof.
  assert (Hbody : forall (f : Effect -> bool) body,
    (forall x, is_stage1_call x = true -> f x = false) ->
    (forall x, In x body -> is_stage1_call x = true) -> count f body = 0).
  { intros f body Hf Hb. apply count_none. intros x Hin. auto. }
  destruct (FlipPancakes_shape ctx cakes) as [body [Hb Ht]].
  assert (H2 : count (is_done "PancakeReady")
       (s2_trace (SyrupPancakes ctx env cakes)
        ++ p_trace (s2_out (SyrupPancakes ctx env cakes)))
     = (if exited (p_exit (s2_out (SyrupPancakes ctx env cakes)))
        then 1 else 0)).
  { rewrite SyrupPancakes_trace, SyrupPancakes_out.
    destruct (run_deferred_state (EventBeginInContext ctx "PancakeReady")
                (syrup_loop env 0 cakes [])) as [_ [_ [_ ->]]].
    rewrite !count_app, syrup_loop_count
      by (intros [] Hx; try discriminate; reflexivity).
    destruct (exited _); reflexivity. }
  split; [|split; [|split]].
  - rewrite Ht. change (EventBegin "FlipPancakes" :: body ++ ?d)
      with ([EventBegin "FlipPancakes"] ++ body ++ d).
    rewrite !count_app, (Hbody (is_done "FlipPancakes") body)
      by (auto; intros [] Hx; try discriminate; reflexivity).
    destruct (s1_err _); reflexivity.
  - exists (EventBegin "FlipPancakes" :: body). split; [exact Ht|].
    change (EventBegin "FlipPancakes" :: body)
      with ([EventBegin "FlipPancakes"] ++ body).
    rewrite !count_app, (Hbody (is_done "FlipPancakes") body),
      (Hbody is_log_record body)
      by (auto; intros [] Hx; try discriminate; reflexivity).
    split; reflexivity.
  - exact H2.
  - unfold SyrupPancakes', syrupPancakes. cbn [s2_trace s2_out].
    rewrite syrup_loop'_eq. exact H2.
Qed.

(** What reaches the log from stage 2: the opening of the event and, once
    the goroutine has returned, its closing.  A failing [Syrup] adds
    nothing. *)
Lemma SyrupPancakes_log_records (ctx : Context) (env : nat -> SelectEnv)
    (cakes : list Pancake) :
  filter is_log_record
    (s2_trace (SyrupPancakes ctx env cakes)
     ++ p_trace (s2_out (SyrupPancakes ctx env cakes)))
  = EventBegin "PancakeReady"
    :: (if exited (p_exit (s2_out (SyrupPancakes ctx env cakes)))
        then [EventDone "PancakeReady"] else []).
Proof.
  rewrite SyrupPancakes_trace, SyrupPancakes_out.
  destruct (run_deferred_state (EventBeginInContext ctx "PancakeReady")
              (syrup_loop env 0 cakes [])) as [_ [_ [_ ->]]].
  rewrite !filter_app.
  assert (H : filter is_log_record (p_trace (syrup_loop env 0 cakes [])) = []).
  { apply List.length_zero_iff_nil.
    apply (syrup_loop_count is_log_record).
    intros [] Hx; try discriminate; reflexivity. }
  rewrite H. destruct (exited _); reflexivity.
Qed.

(** C6, as the code has it.  When the context is cancelled by the time of
    every [select] and the run-time never picks the send where both cases
    can proceed (as when no receiver is waiting), nothing is emitted, the
    goroutine returns, the stream is closed and the event is closed exactly
    once, the two deferred calls being the last effects. *)
Theorem SyrupPancakes_cancel_wins (ctx : Context) (env : nat -> SelectEnv)
    (cakes : list Pancake) :
  (forall p, ctx_done (env p) = true) ->
  (forall p, receiver_ready (env p) = true -> pick (env p) = DoneCase) ->
  p_emitted (s2_out (SyrupPancakes ctx env cakes)) = []
  /\ exited (p_exit (s2_out (SyrupPancakes ctx env cakes))) = true
  /\ (exists t,
        p_trace (s2_out (SyrupPancakes ctx env cakes))
        = t ++ [CloseOut; EventDone "PancakeReady"]
        /\ forall x, In x t -> is_loop_effect x = true)
  /\ count (is_done "PancakeReady")
       (s2_trace (SyrupPancakes ctx env cakes)
        ++ p_trace (s2_out (SyrupPancakes ctx env cakes))) = 1.
Proof.
  intros Hdone Hpick.
  assert (Hsel : forall p, select (env p) = Some DoneCase).
  { intros p. unfold select. specialize (Hdone p). specialize (Hpick p).
    rewrite Hdone. destruct (receiver_ready (env p)); [|reflexivity].
    rewrite Hpick; reflexivity. }
  destruct (syrup_loop_cancel_wins env cakes Hsel 0 []) as [Hem Hex].
  rewrite SyrupPancakes_trace, SyrupPancakes_out.
  destruct (run_deferred_state (EventBeginInContext ctx "PancakeReady")
              (syrup_loop env 0 cakes [])) as [_ [-> [_ ->]]].
  assert (Hexited : exited (p_exit (syrup_loop env 0 cakes [])) = true).
  { rewrite Hex. destruct (existsb syrup_ok cakes); reflexivity. }
  rewrite Hexited. split; [exact Hem|]. split; [reflexivity|]. split.
  - exists (p_trace (syrup_loop env 0 cakes [])). split; [reflexivity|].
    apply syrup_loop_effects.
  - rewrite !count_app, syrup_loop_count
      by (intros [] Hx; try discriminate; reflexivity).
    reflexivity.
Qed.

(** ** The coordinator *)

(** C7.  When [FlipPancakes] returns an error, [ServeBreakfast] returns that
    error; after the effects of [FlipPancakes] it does nothing but the two
    deferred calls, [rootSpan.Finish()] then [cancel()]: [SyrupPancakes] and
    [EatPancakes] are not called and no producer is started. *)
Theorem ServeBreakfast_stage1_error (err : error) :
  s1_err (FlipPancakes (ContextWithSpan Background "ServeHotCakes")
            (MakePancakes 3)) = Some err ->
  sb_ret ServeBreakfast = Some err
  /\ sb_stage2 ServeBreakfast = None
  /\ sb_trace ServeBreakfast
     = [ContextWithCancel; StartSpan "ServeHotCakes";
        AttachSpan "ServeHotCakes"; CallMakePancakes 3]
       ++ s1_trace (FlipPancakes (ContextWithSpan Background "ServeHotCakes")
                      (MakePancakes 3))
       ++ [SpanFinish "ServeHotCakes"; CancelCtx]
  /\ count is_stage2 (sb_trace ServeBreakfast) = 0.
Proof.
  intros Herr. unfold ServeBreakfast. rewrite Herr.
  cbn [sb_ret sb_stage2 sb_trace].
  split; [reflexivity|]. split; [reflexivity|]. split; [reflexivity|].
  destruct (FlipPancakes_shape (ContextWithSpan Background "ServeHotCakes")
              (MakePancakes 3)) as [body [Hb Ht]].
  rewrite Ht, Herr.
  change (EventBegin "FlipPancakes" :: body ++ ?d)
    with ([EventBegin "FlipPancakes"] ++ body ++ d).
  rewrite !count_app.
  rewrite (count_none is_stage2 body).
  - reflexivity.
  - intros x Hin. specialize (Hb x Hin).
    destruct x; try discriminate; reflexivity.
Qed.

(** C9, as the code has it.  When [FlipPancakes] succeeds, [ServeBreakfast]
    starts the producer, calls [EatPancakes], which receives nothing, and
    returns no error after its two deferred calls.  The producer never
    completes a send: it leaves through the [ctx.Done()] case at the first
    item whose [Syrup] succeeds, or runs out of items when none does. *)
Theorem ServeBreakfast_consumer_returns_at_once :
  s1_err (FlipPancakes (ContextWithSpan Background "ServeHotCakes")
            (MakePancakes 3)) = None ->
  sb_ret ServeBreakfast = None
  /\ sb_trace ServeBreakfast
     = [ContextWithCancel; StartSpan "ServeHotCakes";
        AttachSpan "ServeHotCakes"; CallMakePancakes 3]
       ++ s1_trace (FlipPancakes (ContextWithSpan Background "ServeHotCakes")
                      (MakePancakes 3))
       ++ [EventBegin "PancakeReady"; GoProducer; CallEatPancakes;
           SpanFinish "ServeHotCakes"; CancelCtx]
  /\ exists ready,
       sb_stage2 ServeBreakfast = Some ready
       /\ p_emitted (s2_out ready) = []
       /\ (forall q, ~ In (ChanSend q) (p_trace (s2_out ready)))
       /\ p_exit (s2_out ready)
          = if existsb syrup_ok
                 (s1_cakes (FlipPancakes
                              (ContextWithSpan Background "ServeHotCakes")
                              (MakePancakes 3)))
            then Cancelled else Exhausted.
Proof.
  intros Hok. unfold ServeBreakfast. rewrite Hok.
  cbn [sb_ret sb_stage2 sb_trace].
  split; [reflexivity|]. split; [reflexivity|].
  set (ctx := ContextWithSpan Background "ServeHotCakes").
  set (cakes1 := s1_cakes (FlipPancakes ctx (MakePancakes 3))).
  exists (SyrupPancakes ctx served_env cakes1). split; [reflexivity|].
  assert (Hsel : forall p, select (served_env p) = Some DoneCase)
    by reflexivity.
  destruct (syrup_loop_cancel_wins served_env cakes1 Hsel 0 []) as [Hem Hex].
  rewrite SyrupPancakes_trace, SyrupPancakes_out.
  destruct (run_deferred_state (EventBeginInContext ctx "PancakeReady")
              (syrup_loop served_env 0 cakes1 [])) as [_ [-> [_ ->]]].
  split; [exact Hem|]. split; [|exact Hex].
  intros q Hin. apply in_app_or in Hin. destruct Hin as [Hin|Hin].
  - exact (syrup_loop_no_send served_env cakes1 Hsel 0 [] q Hin).
  - destruct (exited _); [|destruct Hin].
    destruct Hin as [H|[H|[]]]; discriminate.
Qed.

(** ** Stage 1 on every batch *)

Lemma flip_loop_some_failure (todo : list Pancake) :
  forallb flip_ok todo = false ->
  exists k c e,
    forallb flip_ok (firstn k todo) = true
    /\ nth_error todo k = Some c
    /\ snd (Flip c) = Some e.
Proof.
  induction todo as [|c rest IH]; intros H; [discriminate|].
  cbn [forallb] in H. destruct (flip_ok c) eqn:Hc.
  - destruct (IH H) as [k [c1 [e [Hpre [Hk He]]]]].
    exists (S k), c1, e. cbn [firstn forallb nth_error].
    rewrite Hc. auto.
  - exists 0, c. unfold flip_ok in Hc.
    destruct (snd (Flip c)) as [e|] eqn:He; [|discriminate].
    exists e. auto.
Qed.

(** The success path.  When every [Flip] succeeds and no flipped item is
    burnt, [FlipPancakes] returns [nil]; it has flipped each item once, in
    order, slept, inspected each item once, in order, and closed its event
    without tagging it. *)
Theorem FlipPancakes_success (ctx : Context) (cakes : list Pancake) :
  forallb flip_ok cakes = true ->
  existsb IsBurnt (map flipped cakes) = false ->
  FlipPancakes ctx cakes
  = {| s1_cakes := map flipped cakes;
       s1_err := None;
       s1_trace :=
         EventBegin "FlipPancakes"
         :: map CallFlip (seq 0 (List.length cakes))
         ++ TimeSleep :: map CallIsBurnt (seq 0 (List.length cakes))
         ++ [EventDone "FlipPancakes"] |}.
Proof.
  intros Hok Hclean. rewrite (FlipPancakes_all_flipped ctx cakes Hok).
  rewrite (burnt_loop_clean (map flipped cakes) 0 Hclean), length_map.
  cbn [fst snd]. rewrite <- app_assoc. reflexivity.
Qed.

(** What [FlipPancakes] returns, on every batch: [nil] exactly when every
    [Flip] succeeds and no flipped item is burnt; an error of the package
    exactly when some [Flip] fails; the "Burnt Pancake" error exactly when
    every [Flip] succeeds and some flipped item is burnt. *)
Theorem FlipPancakes_result (ctx : Context) (cakes : list Pancake) :
  (s1_err (FlipPancakes ctx cakes) = None
   <-> forallb flip_ok cakes = true
       /\ existsb IsBurnt (map flipped cakes) = false)
  /\ ((exists e, s1_err (FlipPancakes ctx cakes) = Some (FromPackage e))
      <-> forallb flip_ok cakes = false)
  /\ (s1_err (FlipPancakes ctx cakes) = Some (ErrorsNew "Burnt Pancake")
      <-> forallb flip_ok cakes = true
          /\ existsb IsBurnt (map flipped cakes) = true).
Proof.
  destruct (forallb flip_ok cakes) eqn:Hok.
  - rewrite (FlipPancakes_all_flipped ctx cakes Hok). cbn [s1_err].
    destruct (existsb IsBurnt (map flipped cakes)) eqn:Hb.
    + destruct (burnt_loop_found (map flipped cakes) 0 Hb) as [k [_ ->]].
      cbn [snd]. repeat split; try discriminate; try tauto.
      * intros [_ H]; discriminate.
      * intros [e H]; discriminate.
    + rewrite (burnt_loop_clean (map flipped cakes) 0 Hb). cbn [snd].
      repeat split; try discriminate; try tauto.
      * intros [e H]; discriminate.
      * intros [_ H]; discriminate.
  - destruct (flip_loop_some_failure cakes Hok) as [k [c [e [Hpre [Hk He]]]]].
    rewrite (FlipPancakes_on_failure ctx cakes k c e Hpre Hk He). cbn [s1_err].
    repeat split; try discriminate; try tauto.
    + intros [H _]; discriminate.
    + intros _. exists e. reflexivity.
    + intros [H _]; discriminate.
Qed.

(** The slice keeps its length, and each element of it is the element that
    was passed in or that element after one [Flip]. *)
Theorem FlipPancakes_slice (ctx : Context) (cakes : list Pancake) :
  List.length (s1_cakes (FlipPancakes ctx cakes)) = List.length cakes
  /\ forall j,
       nth_error (s1_cakes (FlipPancakes ctx cakes)) j = nth_error cakes j
       \/ nth_error (s1_cakes (FlipPancakes ctx cakes)) j
          = option_map flipped (nth_error cakes j).
Proof.
  destruct (forallb flip_ok cakes) eqn:Hok.
  - rewrite (FlipPancakes_all_flipped ctx cakes Hok). cbn [s1_cakes].
    split; [apply length_map|]. intros j. right. apply nth_error_map.
  - destruct (flip_loop_some_failure cakes Hok) as [k [c [e [Hpre [Hk He]]]]].
    rewrite (FlipPancakes_on_failure ctx cakes k c e Hpre Hk He).
    cbn [s1_cakes].
    assert (Hlen : k < List.length cakes).
    { apply nth_error_Some. rewrite Hk. discriminate. }
    assert (Hhead : List.length (map flipped (firstn (S k) cakes)) = S k).
    { rewrite length_map, length_firstn. lia. }
    split.
    + rewrite length_app, Hhead, length_skipn. lia.
    + intros j. destruct (Nat.ltb_spec j (S k)) as [Hj|Hj].
      * right. rewrite nth_error_app1 by (rewrite Hhead; lia).
        rewrite nth_error_map, nth_error_firstn.
        destruct (Nat.ltb_spec j (S k)); [reflexivity | lia].
      * left. rewrite nth_error_app2 by (rewrite Hhead; lia).
        rewrite Hhead, nth_error_skipn. f_equal. lia.
Qed.

(** The burn check stops at the first burnt item: when every [Flip]
    succeeds and item [k] is the first burnt one, [IsBurnt] is called on
    items [0..k] and on no later item. *)
Theorem FlipPancakes_first_burnt (ctx : Context) (cakes : list Pancake)
    (k : nat) (c : Pancake) :
  forallb flip_ok cakes = true ->
  existsb IsBurnt (map flipped (firstn k cakes)) = false ->
  nth_error cakes k = Some c ->
  IsBurnt (flipped c) = true ->
  s1_trace (FlipPancakes ctx cakes)
  = EventBegin "FlipPancakes"
    :: map CallFlip (seq 0 (List.length cakes))
    ++ TimeSleep :: map CallIsBurnt (seq 0 (S k))
    ++ [SetError "FlipPancakes" (ErrorsNew "Burnt Pancake");
        EventDone "FlipPancakes"].
Proof.
  intros Hok Hpre Hk Hc.
  assert (Hrun : forall todo p j,
    existsb IsBurnt (firstn j todo) = false ->
    (exists d, nth_error todo j = Some d /\ IsBurnt d = true) ->
    burnt_loop p todo = (map CallIsBurnt (seq p (S j)), true)).
  { induction todo as [|d0 rest IH]; intros p j Hj [d [Hd Hb]].
    - destruct j; discriminate.
    - destruct j as [|j].
      + cbn in Hd. injection Hd as ->. cbn [burnt_loop]. rewrite Hb.
        reflexivity.
      + cbn [firstn existsb] in Hj. apply orb_false_elim in Hj.
        destruct Hj as [H0 Hrest]. cbn [burnt_loop]. rewrite H0.
        rewrite (IH (S p) j Hrest (ex_intro _ d (conj Hd Hb))). reflexivity. }
  rewrite (FlipPancakes_all_flipped ctx cakes Hok). cbn [s1_trace].
  rewrite (Hrun (map flipped cakes) 0 k).
  - cbn [fst snd]. rewrite <- app_assoc. reflexivity.
  - rewrite firstn_map. exact Hpre.
  - exists (flipped c). split; [|exact Hc].
    rewrite nth_error_map, Hk. reflexivity.
Qed.

(** ** Stage 2 on every batch *)

Definition is_syrup_call (x : Effect) : bool :=
  match x with CallSyrup _ => true | _ => false end.

Definition is_send (x : Effect) : bool :=
  match x with ChanSend _ => true | _ => false end.

Definition is_fmt (x : Effect) : bool :=
  match x with FmtErrorf _ => true | _ => false end.

Definition is_close (x : Effect) : bool :=
  match x with CloseOut => true | _ => false end.

Definition syrup_fails (c : Pancake) : bool := negb (syrup_ok c).

(** The number of items on which the goroutine has called [Syrup]. *)
Definition attempted (r : Producer) : nat := count is_syrup_call (p_trace r).

(** One iteration, with the outcome of [Syrup] kept as [syruped c] and
    [syrup_ok c]. *)
Ltac iteration_of c Hok :=
  cbn [syrup_loop];
  pose proof (eq_refl : syruped c = fst (Syrup c)) as Hfst;
  pose proof (eq_refl : syrup_ok c
                        = match snd (Syrup c) with
                          | None => true
                          | Some _ => false
                          end) as Hok;
  destruct (Syrup c) as [? [?|]]; cbn [fst snd] in Hfst, Hok;
  rewrite <- Hfst; clear Hfst;
  [ | destruct (select _) as [[|]|];
      [ destruct (_ =? _)%nat | | ] ].

Lemma syrup_loop_prefix (env : nat -> SelectEnv) (todo : list Pancake) :
  forall p ms,
  attempted (syrup_loop env p todo ms) <= List.length todo
  /\ filter is_syrup_call (p_trace (syrup_loop env p todo ms))
     = map CallSyrup (seq p (attempted (syrup_loop env p todo ms)))
  /\ p_cakes (syrup_loop env p todo ms)
     = map syruped (firstn (attempted (syrup_loop env p todo ms)) todo)
       ++ skipn (attempted (syrup_loop env p todo ms)) todo
  /\ p_mistakes (syrup_loop env p todo ms)
     = ms ++ map syruped
               (filter syrup_fails
                  (firstn (attempted (syrup_loop env p todo ms)) todo))
  /\ (p_exit (syrup_loop env p todo ms) = Exhausted ->
      attempted (syrup_loop env p todo ms) = List.length todo).
Proof.
  induction todo as [|c rest IH]; intros p ms.
  - cbn. rewrite app_nil_r. repeat split; auto.
  - iteration_of c Hok.
    all: unfold attempted, count in *;
      cbn [p_trace p_cakes p_mistakes p_exit next stop app filter
           is_syrup_call List.length firstn skipn map seq];
      unfold syrup_fails at 1; rewrite Hok; cbn [negb map].
    all: try (repeat split; try reflexivity; try lia; try discriminate;
              symmetry; apply app_nil_r).
    + destruct (IH (S p) (ms ++ [syruped c])) as [H1 [H2 [H3 [H4 H5]]]].
      rewrite <- H2, <- H3, H4, <- app_assoc.
      repeat split; try reflexivity; try lia. intros Hx. f_equal. auto.
    + destruct (IH (S p) ms) as [H1 [H2 [H3 [H4 H5]]]].
      rewrite <- H2, <- H3, H4.
      repeat split; try reflexivity; try lia. intros Hx. f_equal. auto.
Qed.

Lemma syrup_loop_emitted (env : nat -> SelectEnv) (todo : list Pancake) :
  forall p ms,
  count is_send (p_trace (syrup_loop env p todo ms))
  = List.length (p_emitted (syrup_loop env p todo ms))
  /\ count is_fmt (p_trace (syrup_loop env p todo ms)) + List.length ms
     = List.length (p_mistakes (syrup_loop env p todo ms))
  /\ match p_exit (syrup_loop env p todo ms) with
     | Exhausted | EarlyExit =>
         p_emitted (syrup_loop env p todo ms)
         = map syruped
             (filter syrup_ok
                (firstn (attempted (syrup_loop env p todo ms)) todo))
     | Cancelled | Blocked =>
         exists c,
           In c todo /\ syrup_ok c = true
           /\ p_emitted (syrup_loop env p todo ms) ++ [syruped c]
              = map syruped
                  (filter syrup_ok
                     (firstn (attempted (syrup_loop env p todo ms)) todo))
     end.
Proof.
  induction todo as [|c rest IH]; intros p ms.
  - cbn. auto.
  - iteration_of c Hok.
    all: unfold attempted, count in *;
      cbn [p_trace p_emitted p_mistakes p_exit next stop app filter
           is_syrup_call is_send is_fmt List.length firstn];
      rewrite ?Hok; cbn [map app].
    + destruct (IH (S p) (ms ++ [syruped c])) as [H1 [H2 H3]].
      rewrite length_app in H2. cbn [List.length] in H2.
      split; [exact H1|]. split; [lia|].
      destruct (p_exit (syrup_loop env (S p) rest (ms ++ [syruped c])));
        try exact H3;
        destruct H3 as [d [Hin [Hd Hem]]]; exists d;
        (split; [right; exact Hin | split; [exact Hd | exact Hem]]).
    + repeat split.
    + destruct (IH (S p) ms) as [H1 [H2 H3]].
      split; [f_equal; exact H1|]. split; [exact H2|].
      destruct (p_exit (syrup_loop env (S p) rest ms));
        try (f_equal; exact H3);
        destruct H3 as [d [Hin [Hd Hem]]]; exists d;
        (split; [right; exact Hin | split; [exact Hd | f_equal; exact Hem]]).
    + split; [reflexivity|]. split; [reflexivity|].
      exists c. split; [left; reflexivity | split; [exact Hok | reflexivity]].
    + split; [reflexivity|]. split; [reflexivity|].
      exists c. split; [left; reflexivity | split; [exact Hok | reflexivity]].
Qed.

(** The deferred calls add no item call, no send and no [fmt.Errorf]. *)
Lemma SyrupPancakes_count (f : Effect -> bool) (ctx : Context)
    (env : nat -> SelectEnv) (cakes : list Pancake) :
  f CloseOut = false -> f (EventDone "PancakeReady") = false ->
  count f (p_trace (s2_out (SyrupPancakes ctx env cakes)))
  = count f (p_trace (syrup_loop env 0 cakes [])).
Proof.
  intros H1 H2. rewrite SyrupPancakes_trace, count_app.
  destruct (exited _); unfold count at 2; cbn [filter];
    rewrite ?H1, ?H2; cbn; lia.
Qed.

Lemma SyrupPancakes_filter (f : Effect -> bool) (ctx : Context)
    (env : nat -> SelectEnv) (cakes : list Pancake) :
  f CloseOut = false -> f (EventDone "PancakeReady") = false ->
  filter f (p_trace (s2_out (SyrupPancakes ctx env cakes)))
  = filter f (p_trace (syrup_loop env 0 cakes [])).
Proof.
  intros H1 H2. rewrite SyrupPancakes_trace, filter_app.
  destruct (exited _); cbn [filter]; rewrite ?H1, ?H2; apply app_nil_r.
Qed.

(** The goroutine works on a prefix of the batch: it calls [Syrup] on items
    [0..m-1], once each and in order, never going back to an item; the slice
    holds those items as [Syrup] left them, followed by the other items
    untouched; and a loop that ran out of items has attempted all of them. *)
Theorem SyrupPancakes_attempts_a_prefix (ctx : Context)
    (env : nat -> SelectEnv) (cakes : list Pancake) :
  attempted (s2_out (SyrupPancakes ctx env cakes)) <= List.length cakes
  /\ filter is_syrup_call (p_trace (s2_out (SyrupPancakes ctx env cakes)))
     = map CallSyrup
         (seq 0 (attempted (s2_out (SyrupPancakes ctx env cakes))))
  /\ p_cakes (s2_out (SyrupPancakes ctx env cakes))
     = map syruped
         (firstn (attempted (s2_out (SyrupPancakes ctx env cakes))) cakes)
       ++ skipn (attempted (s2_out (SyrupPancakes ctx env cakes))) cakes
  /\ (p_exit (s2_out (SyrupPancakes ctx env cakes)) = Exhausted ->
      attempted (s2_out (SyrupPancakes ctx env cakes)) = List.length cakes).
Proof.
  unfold attempted.
  rewrite (SyrupPancakes_count is_syrup_call), (SyrupPancakes_filter is_syrup_call)
    by reflexivity.
  rewrite SyrupPancakes_out.
  destruct (run_deferred_state (EventBeginInContext ctx "PancakeReady")
              (syrup_loop env 0 cakes [])) as [-> [_ [_ ->]]].
  destruct (syrup_loop_prefix env cakes 0 []) as [H1 [H2 [H3 [_ H5]]]].
  unfold attempted in *. auto.
Qed.

(** [mistakes] holds exactly the attempted items whose [Syrup] failed, as
    [Syrup] left them and in batch order; [fmt.Errorf] was called once for
    each of them. *)
Theorem SyrupPancakes_mistakes (ctx : Context) (env : nat -> SelectEnv)
    (cakes : list Pancake) :
  p_mistakes (s2_out (SyrupPancakes ctx env cakes))
  = map syruped
      (filter syrup_fails
         (firstn (attempted (s2_out (SyrupPancakes ctx env cakes))) cakes))
  /\ count is_fmt (p_trace (s2_out (SyrupPancakes ctx env cakes)))
     = List.length (p_mistakes (s2_out (SyrupPancakes ctx env cakes))).
Proof.
  unfold attempted.
  rewrite (SyrupPancakes_count is_syrup_call), (SyrupPancakes_count is_fmt)
    by reflexivity.
  rewrite SyrupPancakes_out.
  destruct (run_deferred_state (EventBeginInContext ctx "PancakeReady")
              (syrup_loop env 0 cakes [])) as [_ [_ [-> _]]].
  destruct (syrup_loop_prefix env cakes 0 []) as [_ [_ [_ [H4 _]]]].
  destruct (syrup_loop_emitted env cakes 0 []) as [_ [H2 _]].
  unfold attempted in *. cbn [List.length app] in *.
  split; [exact H4 | lia].
Qed.

(** The stream carries, in batch order, the attempted items whose [Syrup]
    succeeded, each sent once: all of them when the goroutine left by the
    end of the loop or by the early exit, and all but the last one, whose
    send did not take place, when it left by [ctx.Done()] or is blocked. *)
Theorem SyrupPancakes_emissions (ctx : Context) (env : nat -> SelectEnv)
    (cakes : list Pancake) :
  count is_send (p_trace (s2_out (SyrupPancakes ctx env cakes)))
  = List.length (p_emitted (s2_out (SyrupPancakes ctx env cakes)))
  /\ match p_exit (s2_out (SyrupPancakes ctx env cakes)) with
     | Exhausted | EarlyExit =>
         p_emitted (s2_out (SyrupPancakes ctx env cakes))
         = map syruped
             (filter syrup_ok
                (firstn (attempted (s2_out (SyrupPancakes ctx env cakes)))
                   cakes))
     | Cancelled | Blocked =>
         p_emitted (s2_out (SyrupPancakes ctx env cakes))
         = removelast
             (map syruped
                (filter syrup_ok
                   (firstn (attempted (s2_out (SyrupPancakes ctx env cakes)))
                      cakes)))
         /\ List.length (p_emitted (s2_out (SyrupPancakes ctx env cakes))) + 1
            = List.length
                (filter syrup_ok
                   (firstn (attempted (s2_out (SyrupPancakes ctx env cakes)))
                      cakes))
     end.
Proof.
  unfold attempted.
  rewrite (SyrupPancakes_count is_syrup_call), (SyrupPancakes_count is_send)
    by reflexivity.
  rewrite SyrupPancakes_out.
  destruct (run_deferred_state (EventBeginInContext ctx "PancakeReady")
              (syrup_loop env 0 cakes [])) as [_ [-> [_ ->]]].
  destruct (syrup_loop_emitted env cakes 0 []) as [H1 [_ H3]].
  unfold attempted in *. split; [exact H1|].
  destruct (p_exit (syrup_loop env 0 cakes [])); try exact H3;
    destruct H3 as [d [_ [_ Hem]]]; rewrite <- Hem;
    (split; [symmetry; apply removelast_last|]);
    apply (f_equal (@List.length Pancake)) in Hem;
    rewrite length_app, length_map in Hem; exact Hem.
Qed.

Lemma syrup_loop_all_sent (env : nat -> SelectEnv) (todo : list Pancake) :
  (forall p, select (env p) = Some SendCase) ->
  forall p ms, ms <> [] -> p_exit (syrup_loop env p todo ms) = Exhausted.
Proof.
  intros Hsend. induction todo as [|c rest IH]; intros p ms Hne;
    [reflexivity|].
  cbn [syrup_loop]. destruct (Syrup c) as [c' [e|]].
  - cbn [p_exit next]. apply IH. intros H. apply app_eq_nil in H.
    destruct H. discriminate.
  - rewrite Hsend. destruct ms as [|m ms]; [contradiction|].
    cbn [List.length Nat.eqb p_exit next]. apply IH. exact Hne.
Qed.

(** A full pass.  When [Syrup] fails on the first item and every [select]
    takes its send case, the goroutine goes through the whole batch: the
    stream carries every item whose [Syrup] succeeded, [mistakes] holds every
    item whose [Syrup] failed, both in batch order, and the loop ends by
    running out of items. *)
Theorem SyrupPancakes_full_pass (ctx : Context) (env : nat -> SelectEnv)
    (c : Pancake) (rest : list Pancake) :
  syrup_ok c = false ->
  (forall p, select (env p) = Some SendCase) ->
  p_exit (s2_out (SyrupPancakes ctx env (c :: rest))) = Exhausted
  /\ p_emitted (s2_out (SyrupPancakes ctx env (c :: rest)))
     = map syruped (filter syrup_ok (c :: rest))
  /\ p_mistakes (s2_out (SyrupPancakes ctx env (c :: rest)))
     = map syruped (filter syrup_fails (c :: rest))
  /\ p_cakes (s2_out (SyrupPancakes ctx env (c :: rest)))
     = map syruped (c :: rest).
Proof.
  intros Hc Hsend.
  assert (Hex : p_exit (syrup_loop env 0 (c :: rest) []) = Exhausted).
  { cbn [syrup_loop]. unfold syrup_ok in Hc.
    destruct (Syrup c) as [c' [e|]]; cbn [snd] in Hc; [|discriminate].
    cbn [p_exit next]. apply (syrup_loop_all_sent env rest Hsend).
    discriminate. }
  destruct (syrup_loop_prefix env (c :: rest) 0 [])
    as [_ [_ [Hcakes [Hm Hall]]]].
  destruct (syrup_loop_emitted env (c :: rest) 0 []) as [_ [_ Hem]].
  rewrite SyrupPancakes_out.
  destruct (run_deferred_state (EventBeginInContext ctx "PancakeReady")
              (syrup_loop env 0 (c :: rest) [])) as [-> [-> [-> ->]]].
  rewrite Hex in Hem. rewrite (Hall Hex) in *.
  rewrite firstn_all in *. rewrite skipn_all, app_nil_r in Hcakes. auto.
Qed.

Lemma syrup_loop_all_fail (env : nat -> SelectEnv) (todo : list Pancake) :
  forallb syrup_fails todo = true ->
  forall p ms,
  syrup_loop env p todo ms
  = {| p_cakes := map syruped todo;
       p_emitted := [];
       p_mistakes := ms ++ map syruped todo;
       p_trace :=
         flat_map (fun q => [CallSyrup q; FmtErrorf "Ohh no, soggy pancakes!"])
           (seq p (List.length todo));
       p_exit := Exhausted |}.
Proof.
  induction todo as [|c rest IH]; intros Hall p ms.
  - cbn. rewrite app_nil_r. reflexivity.
  - cbn [forallb] in Hall. apply andb_prop in Hall. destruct Hall as [Hc Hrest].
    unfold syrup_fails, syrup_ok in Hc. cbn [syrup_loop].
    pose proof (eq_refl : syruped c = fst (Syrup c)) as Hfst.
    destruct (Syrup c) as [c' [e|]]; cbn [fst snd] in Hc, Hfst;
      [|discriminate].
    rewrite <- Hfst, (IH Hrest). unfold next.
    cbn [p_cakes p_emitted p_mistakes p_trace p_exit app map List.length seq
         flat_map].
    rewrite <- app_assoc. reflexivity.
Qed.

(** A batch on which no [Syrup] succeeds, the empty batch included, is gone
    through without reaching the [select]: whatever the receiver and the
    context do, nothing is emitted, every item ends in [mistakes], and the
    goroutine closes the stream and its event. *)
Theorem SyrupPancakes_all_fail (ctx : Context) (env : nat -> SelectEnv)
    (cakes : list Pancake) :
  forallb syrup_fails cakes = true ->
  s2_out (SyrupPancakes ctx env cakes)
  = {| p_cakes := map syruped cakes;
       p_emitted := [];
       p_mistakes := map syruped cakes;
       p_trace :=
         flat_map (fun q => [CallSyrup q; FmtErrorf "Ohh no, soggy pancakes!"])
           (seq 0 (List.length cakes))
         ++ [CloseOut; EventDone "PancakeReady"];
       p_exit := Exhausted |}.
Proof.
  intros Hall. rewrite SyrupPancakes_out.
  rewrite (syrup_loop_all_fail env cakes Hall 0 []). reflexivity.
Qed.

(** Whether one of the two cases of the [select] can proceed. *)
Definition can_proceed (e : SelectEnv) : bool :=
  receiver_ready e || ctx_done e.

Lemma syrup_loop_returns (env : nat -> SelectEnv) (todo : list Pancake) :
  (forall p, can_proceed (env p) = true) ->
  forall p ms, exited (p_exit (syrup_loop env p todo ms)) = true.
Proof.
  intros Hgo. induction todo as [|c rest IH]; intros p ms; [reflexivity|].
  cbn [syrup_loop]. destruct (Syrup c) as [c' [e|]].
  - cbn [p_exit next]. apply IH.
  - specialize (Hgo p). unfold can_proceed in Hgo. unfold select.
    destruct (receiver_ready (env p)), (ctx_done (env p));
      try discriminate; try reflexivity;
      try (destruct (pick (env p)); [|reflexivity]);
      (destruct (List.length ms =? 0)%nat;
       [reflexivity | cbn [p_exit next]; apply IH]).
Qed.

(** The goroutine does not leak as long as its [select] can proceed: when,
    at every iteration, a receiver is waiting or the context is cancelled,
    the goroutine returns, and its last two effects are the closing of the
    stream and of the event. *)
Theorem SyrupPancakes_returns (ctx : Context) (env : nat -> SelectEnv)
    (cakes : list Pancake) :
  (forall p, can_proceed (env p) = true) ->
  exited (p_exit (s2_out (SyrupPancakes ctx env cakes))) = true
  /\ exists t,
       p_trace (s2_out (SyrupPancakes ctx env cakes))
       = t ++ [CloseOut; EventDone "PancakeReady"]
       /\ forall x, In x t -> is_loop_effect x = true.
Proof.
  intros Hgo. rewrite SyrupPancakes_trace, SyrupPancakes_out.
  destruct (run_deferred_state (EventBeginInContext ctx "PancakeReady")
              (syrup_loop env 0 cakes [])) as [_ [_ [_ ->]]].
  rewrite (syrup_loop_returns env cakes Hgo 0 []).
  split; [reflexivity|].
  exists (p_trace (syrup_loop env 0 cakes [])). split; [reflexivity|].
  apply syrup_loop_effects.
Qed.

Lemma split_at_only (A : Type) (x y : A) (l t1 t2 : list A) :
  ~ In x l -> y <> x -> l ++ [x; y] = t1 ++ x :: t2 -> t1 = l /\ t2 = [y].
Proof.
  revert t1. induction l as [|a l IH]; intros t1 Hnot Hy Heq.
  - destruct t1 as [|b t1]; cbn in Heq.
    + injection Heq as <-. auto.
    + injection Heq as <- Heq. destruct t1 as [|b t1]; cbn in Heq.
      * injection Heq as Hxy. contradiction.
      * injection Heq as _ Heq. destruct t1; discriminate.
  - destruct t1 as [|b t1]; cbn in Heq.
    + injection Heq as Hax _. exfalso. apply Hnot. left. exact Hax.
    + injection Heq as <- Heq.
      destruct (IH t1 (fun H => Hnot (or_intror H)) Hy Heq) as [-> ->]. auto.
Qed.

(** The stream is closed at most once, exactly when the goroutine has
    returned, and nothing is sent on it afterwards: what precedes
    [close(out)] in the trace holds every send, and what follows it is the
    closing of the event alone. *)
Theorem SyrupPancakes_closes_last (ctx : Context) (env : nat -> SelectEnv)
    (cakes : list Pancake) :
  count is_close (p_trace (s2_out (SyrupPancakes ctx env cakes)))
  = (if exited (p_exit (s2_out (SyrupPancakes ctx env cakes))) then 1 else 0)
  /\ forall t1 t2,
       p_trace (s2_out (SyrupPancakes ctx env cakes)) = t1 ++ CloseOut :: t2 ->
       t2 = [EventDone "PancakeReady"]
       /\ count is_send t1
          = List.length (p_emitted (s2_out (SyrupPancakes ctx env cakes))).
Proof.
  rewrite SyrupPancakes_trace, SyrupPancakes_out.
  destruct (run_deferred_state (EventBeginInContext ctx "PancakeReady")
              (syrup_loop env 0 cakes [])) as [_ [-> [_ ->]]].
  assert (Hnot : ~ In CloseOut (p_trace (syrup_loop env 0 cakes []))).
  { intros Hin. apply syrup_loop_effects in Hin. discriminate. }
  split.
  - rewrite count_app, syrup_loop_count
      by (intros [] Hx; try discriminate; reflexivity).
    destruct (exited _); reflexivity.
  - intros t1 t2 Heq. destruct (exited _).
    + apply split_at_only in Heq; [|exact Hnot|discriminate].
      destruct Heq as [-> ->]. split; [reflexivity|].
      apply (syrup_loop_emitted env cakes 0 []).
    + rewrite app_nil_r in Heq. exfalso. apply Hnot. rewrite Heq.
      apply in_or_app. right. left. reflexivity.
Qed.

(** [syrupPancakes] itself opens no event, and its goroutine closes the
    event that the context it is given carries: with a context that carries
    none, it writes no log record at all and still closes the stream. *)
Theorem syrupPancakes_finishes_the_event_of_ctx (ctx : Context)
    (env : nat -> SelectEnv) (cakes : list Pancake) :
  s2_trace (syrupPancakes ctx env cakes) = [GoProducer]
  /\ filter is_log_record (p_trace (s2_out (syrupPancakes ctx env cakes)))
     = (if exited (p_exit (s2_out (syrupPancakes ctx env cakes)))
        then match ctx_event ctx with
             | Some name => [EventDone name]
             | None => []
             end
        else [])
  /\ count is_close (p_trace (s2_out (syrupPancakes ctx env cakes)))
     = (if exited (p_exit (s2_out (syrupPancakes ctx env cakes)))
        then 1 else 0).
Proof.
  unfold syrupPancakes. cbn [s2_trace s2_out]. rewrite syrup_loop'_eq.
  split; [reflexivity|].
  destruct (run_deferred_state ctx (syrup_loop env 0 cakes []))
    as [_ [_ [_ ->]]].
  rewrite run_deferred_trace, filter_app, count_app.
  assert (H : filter is_log_record (p_trace (syrup_loop env 0 cakes [])) = []).
  { apply List.length_zero_iff_nil. apply (syrup_loop_count is_log_record).
    intros [] Hx; try discriminate; reflexivity. }
  rewrite H, (syrup_loop_count is_close)
    by (intros [] Hx; try discriminate; reflexivity).
  unfold MaybeFinishEvent.
  destruct (exited _); [|split; reflexivity].
  destruct (ctx_event ctx); split; reflexivity.
Qed.

(** ** The coordinator on every batch *)

Lemma FlipPancakes_nil_iff (ctx : Context) (cakes : list Pancake) :
  s1_err (FlipPancakes ctx cakes) = None
  <-> forallb flip_ok cakes = true
      /\ existsb IsBurnt (map flipped cakes) = false.
Proof.
  destruct (forallb flip_ok cakes) eqn:Hok.
  - rewrite (FlipPancakes_all_flipped ctx cakes Hok). cbn [s1_err].
    destruct (existsb IsBurnt (map flipped cakes)) eqn:Hb.
    + destruct (burnt_loop_found (map flipped cakes) 0 Hb) as [k [_ ->]].
      cbn [snd]. split; [discriminate | intros [_ H]; discriminate].
    + rewrite (burnt_loop_clean (map flipped cakes) 0 Hb). cbn [snd]. tauto.
  - destruct (flip_loop_some_failure cakes Hok) as [k [c [e [Hpre [Hk He]]]]].
    rewrite (FlipPancakes_on_failure ctx cakes k c e Hpre Hk He). cbn [s1_err].
    split; [discriminate | intros [H _]; discriminate].
Qed.

(** What [ServeBreakfast] returns is what [FlipPancakes] returned, whatever
    [Syrup] does and whatever becomes of the stream: it returns [nil] exactly
    when every [Flip] of the batch of three succeeds and no flipped item is
    burnt, and it starts stage 2 exactly in that case. *)
Theorem ServeBreakfast_result :
  sb_ret ServeBreakfast
  = s1_err (FlipPancakes (ContextWithSpan Background "ServeHotCakes")
              (MakePancakes 3))
  /\ (sb_ret ServeBreakfast = None
      <-> forallb flip_ok (MakePancakes 3) = true
          /\ existsb IsBurnt (map flipped (MakePancakes 3)) = false)
  /\ (sb_ret ServeBreakfast = None
      <-> exists ready, sb_stage2 ServeBreakfast = Some ready).
Proof.
  assert (Hret : sb_ret ServeBreakfast
    = s1_err (FlipPancakes (ContextWithSpan Background "ServeHotCakes")
                (MakePancakes 3))).
  { unfold ServeBreakfast.
    destruct (s1_err (FlipPancakes (ContextWithSpan Background "ServeHotCakes")
                        (MakePancakes 3))); reflexivity. }
  split; [exact Hret|]. split.
  - rewrite Hret. apply FlipPancakes_nil_iff.
  - unfold ServeBreakfast.
    destruct (s1_err (FlipPancakes (ContextWithSpan Background "ServeHotCakes")
                        (MakePancakes 3))); cbn [sb_ret sb_stage2].
    + split; [discriminate | intros [r H]; discriminate].
    + split; [intros _; eexists; reflexivity | reflexivity].
Qed.

(** The effects that belong to the root context and the root span. *)
Definition is_root (x : Effect) : bool :=
  match x with
  | ContextWithCancel | StartSpan _ | AttachSpan _ | CallMakePancakes _
  | SpanFinish _ | CancelCtx => true
  | _ => false
  end.

(** On each of its two returns [ServeBreakfast] ends with its deferred calls,
    [rootSpan.Finish()] first and [cancel()] second, after everything else it
    does; the context is created and cancelled once, the root span started
    and finished once, and the batch made once. *)
Theorem ServeBreakfast_cleanup :
  exists t,
    sb_trace ServeBreakfast
    = [ContextWithCancel; StartSpan "ServeHotCakes";
       AttachSpan "ServeHotCakes"; CallMakePancakes 3]
      ++ t ++ [SpanFinish "ServeHotCakes"; CancelCtx]
    /\ count is_root t = 0.
Proof.
  destruct (FlipPancakes_shape (ContextWithSpan Background "ServeHotCakes")
              (MakePancakes 3)) as [body [Hb Ht]].
  assert (Hbody : count is_root body = 0).
  { apply count_none. intros x Hin. specialize (Hb x Hin).
    destruct x; try discriminate; reflexivity. }
  unfold ServeBreakfast.
  destruct (s1_err (FlipPancakes (ContextWithSpan Background "ServeHotCakes")
                      (MakePancakes 3))) as [e|] eqn:Herr;
    cbn [sb_trace].
  - exists (s1_trace (FlipPancakes (ContextWithSpan Background "ServeHotCakes")
                        (MakePancakes 3))).
    split; [reflexivity|]. rewrite Ht.
    change (EventBegin "FlipPancakes" :: body ++ ?d)
      with ([EventBegin "FlipPancakes"] ++ body ++ d).
    rewrite !count_app, Hbody. reflexivity.
  - exists (s1_trace (FlipPancakes (ContextWithSpan Background "ServeHotCakes")
                        (MakePancakes 3))
            ++ [EventBegin "PancakeReady"; GoProducer; CallEatPancakes]).
    split.
    + cbn [s2_trace SyrupPancakes app]. rewrite <- !app_assoc. reflexivity.
    + rewrite Ht.
      change (EventBegin "FlipPancakes" :: body ++ ?d)
        with ([EventBegin "FlipPancakes"] ++ body ++ d).
      rewrite !count_app, Hbody. reflexivity.
Qed.

(** ** Accounting in stage 2 *)



(** The early exit can only be taken at the first item of the batch: a
    goroutine that left by it has called [Syrup] on that item alone, has
    emitted it, and has an empty [mistakes]. *)
Theorem SyrupPancakes_early_exit_at_first_item (ctx : Context)
    (env : nat -> SelectEnv) (cakes : list Pancake) :
  p_exit (s2_out (SyrupPancakes ctx env cakes)) = EarlyExit ->
  exists c rest,
    cakes = c :: rest
    /\ syrup_ok c = true
    /\ s2_out (SyrupPancakes ctx env cakes)
       = {| p_cakes := syruped c :: rest;
            p_emitted := [syruped c];
            p_mistakes := [];
            p_trace := [CallSyrup 0; ChanSend 0; CloseOut;
                        EventDone "PancakeReady"];
            p_exit := EarlyExit |}.
Proof.
  rewrite SyrupPancakes_out.
  destruct (run_deferred_state (EventBeginInContext ctx "PancakeReady")
              (syrup_loop env 0 cakes [])) as [_ [_ [_ ->]]].
  destruct cakes as [|c rest]; [discriminate|].
  intros Hx. exists c, rest. revert Hx. cbn [syrup_loop].
  pose proof (eq_refl : syruped c = fst (Syrup c)) as Hfst.
  pose proof (eq_refl : syrup_ok c
                        = match snd (Syrup c) with
                          | None => true
                          | Some _ => false
                          end) as Hok.
  destruct (Syrup c) as [c' [e|]]; cbn [fst snd] in Hfst, Hok;
    rewrite <- Hfst.
  - cbn [p_exit next]. intros Hx. exfalso.
    apply (syrup_loop_with_mistakes env rest 1 ([] ++ [syruped c]));
      [discriminate | exact Hx].
  - cbn [List.length Nat.eqb].
    destruct (select (env 0)) as [[|]|]; try discriminate.
    intros _. auto.
Qed.

End Kitchen.


Arguments FromPackage {PkgError} e.
Arguments ErrorsNew {PkgError} msg.
Arguments EventBegin {PkgError} name.
Arguments SetError {PkgError} name e.
Arguments EventDone {PkgError} name.
Arguments CallFlip {PkgError} p.
Arguments TimeSleep {PkgError}.
Arguments CallIsBurnt {PkgError} p.
Arguments CallSyrup {PkgError} p.
Arguments FmtErrorf {PkgError} msg.
Arguments ChanSend {PkgError} p.
Arguments CtxDoneRecv {PkgError}.
Arguments CloseOut {PkgError}.
Arguments is_log_record {PkgError} x.
Arguments flip_ok {Pancake PkgError} Flip c.
Arguments flipped {Pancake PkgError} Flip c.
Arguments syrup_ok {Pancake PkgError} Syrup c.
Arguments syruped {Pancake PkgError} Syrup c.
Arguments s1_cakes {Pancake PkgError} s.
Arguments s1_err {Pancake PkgError} s.
Arguments s1_trace {Pancake PkgError} s.
Arguments p_cakes {Pancake PkgError} p.
Arguments p_emitted {Pancake PkgError} p.
Arguments p_mistakes {Pancake PkgError} p.
Arguments p_trace {Pancake PkgError} p.
Arguments p_exit {Pancake PkgError} p.
Arguments s2_trace {Pancake PkgError} s.
Arguments s2_out {Pancake PkgError} s.
Arguments sb_ret {Pancake PkgError} s.
Arguments sb_trace {Pancake PkgError} s.
Arguments sb_stage2 {Pancake PkgError} s.
Arguments FlipPancakes {Pancake PkgError} Flip IsBurnt ctx cakes.
Arguments SyrupPancakes {Pancake PkgError} Syrup ctx env cakes.
Arguments ServeBreakfast {Pancake PkgError} Flip IsBurnt Syrup MakePancakes.

(** ** The pipeline on the griddle *)

Import Griddle.

(** Three fresh cakes, sends taken: the first cake is emitted and the
    goroutine leaves by the early exit. *)
Lemma SyrupPancakes_all_ok_witness :
  p_emitted (s2_out (SyrupPancakes Syrup Background (fun _ => draining)
                       [fresh; fresh; fresh]))
  = [syruped Syrup fresh]
  /\ p_exit (s2_out (SyrupPancakes Syrup Background (fun _ => draining)
                       [fresh; fresh; fresh]))
     = EarlyExit.
Proof.
  destruct (SyrupPancakes_all_ok Cake string Syrup Background
              (fun _ => draining) fresh [fresh; fresh] eq_refl)
    as [_ [Hsend _]].
  destruct (Hsend eq_refl) as [Hem [Hex _]].
  split; [exact Hem | exact Hex].
Defined.

(** Against C1 as stated: three cakes whose [Syrup] all succeed, and a
    [select] that can only take the [ctx.Done()] case.  The stream is closed
    after no emission at all, not after exactly one. *)
Lemma SyrupPancakes_all_ok_cancelled :
  forallb (syrup_ok Syrup) [fresh; fresh; fresh] = true
  /\ p_emitted (s2_out (SyrupPancakes Syrup Background (fun _ => abandoned)
                          [fresh; fresh; fresh])) = []
  /\ List.length
       (p_emitted (s2_out (SyrupPancakes Syrup Background (fun _ => abandoned)
                             [fresh; fresh; fresh]))) <> 1
  /\ p_trace (s2_out (SyrupPancakes Syrup Background (fun _ => abandoned)
                        [fresh; fresh; fresh]))
     = [CallSyrup 0; CtxDoneRecv; CloseOut; EventDone "PancakeReady"].
Proof.
  repeat split. vm_compute. discriminate.
Qed.

(** The second of three cakes sticks. *)
Lemma FlipPancakes_fail_fast_witness :
  s1_err (FlipPancakes Flip IsBurnt Background [fresh; sticky; fresh])
  = Some (FromPackage "stuck to the pan")
  /\ s1_trace (FlipPancakes Flip IsBurnt Background [fresh; sticky; fresh])
     = [EventBegin "FlipPancakes"; CallFlip 0; CallFlip 1;
        SetError "FlipPancakes" (FromPackage "stuck to the pan");
        EventDone "FlipPancakes"].
Proof.
  destruct (FlipPancakes_fail_fast Cake string Flip IsBurnt Background
              [fresh; sticky; fresh] 1 sticky "stuck to the pan"
              eq_refl eq_refl eq_refl)
    as [Herr [Htrace _]].
  split; [exact Herr | exact Htrace].
Defined.

(** Three cakes flip well and the second is burnt. *)
Lemma FlipPancakes_burnt_batch_witness :
  s1_err (FlipPancakes Flip IsBurnt Background [fresh; charred; fresh])
  = Some (ErrorsNew "Burnt Pancake")
  /\ s1_cakes (FlipPancakes Flip IsBurnt Background [fresh; charred; fresh])
     = map (flipped Flip) [fresh; charred; fresh].
Proof.
  destruct (FlipPancakes_burnt_batch Cake string Flip IsBurnt Background
              [fresh; charred; fresh] eq_refl eq_refl)
    as [Herr [_ [Hcakes _]]].
  split; [exact Herr | exact Hcakes].
Defined.

(** The first of three cakes comes out soggy. *)
Lemma SyrupPancakes_first_fails_witness :
  (exists more,
     p_mistakes (s2_out (SyrupPancakes Syrup Background (fun _ => draining)
                           [drenched; fresh; fresh]))
     = syruped Syrup drenched :: more)
  /\ p_exit (s2_out (SyrupPancakes Syrup Background (fun _ => draining)
                       [drenched; fresh; fresh]))
     <> EarlyExit.
Proof.
  destruct (SyrupPancakes_first_fails Cake string Syrup Background
              (fun _ => draining) drenched [fresh; fresh] eq_refl)
    as [Hm [_ [Hx _]]].
  split; [exact Hm | exact Hx].
Defined.

(** Nobody receives and the context is cancelled. *)
Lemma SyrupPancakes_cancel_wins_witness :
  p_emitted (s2_out (SyrupPancakes Syrup Background (fun _ => abandoned)
                       [fresh; fresh; fresh])) = []
  /\ exited (p_exit (s2_out (SyrupPancakes Syrup Background
                               (fun _ => abandoned) [fresh; fresh; fresh])))
     = true.
Proof.
  destruct (SyrupPancakes_cancel_wins Cake string Syrup Background
              (fun _ => abandoned) [fresh; fresh; fresh]
              (fun _ => eq_refl) (fun _ _ => eq_refl))
    as [Hem [Hex _]].
  split; [exact Hem | exact Hex].
Defined.

(** Against C6 as stated: the context is cancelled before anything was
    emitted, a receiver is waiting, and the [select], free to take either
    case, takes the send.  One cake is emitted. *)
Lemma SyrupPancakes_cancelled_yet_emits :
  ctx_done late_send = true
  /\ select late_send = Some SendCase
  /\ p_emitted (s2_out (SyrupPancakes Syrup Background (fun _ => late_send)
                          [fresh; fresh; fresh]))
     = [syruped Syrup fresh]
  /\ p_emitted (s2_out (SyrupPancakes Syrup Background (fun _ => late_send)
                          [fresh; fresh; fresh])) <> [].
Proof.
  repeat split. vm_compute. discriminate.
Qed.

(** The batch of three whose second cake sticks. *)
Lemma ServeBreakfast_stage1_error_witness :
  sb_ret (ServeBreakfast Flip IsBurnt Syrup (MakeWith 1 sticky))
  = Some (FromPackage "stuck to the pan")
  /\ sb_stage2 (ServeBreakfast Flip IsBurnt Syrup (MakeWith 1 sticky)) = None.
Proof.
  destruct (ServeBreakfast_stage1_error Cake string Flip IsBurnt Syrup
              (MakeWith 1 sticky) (FromPackage "stuck to the pan") eq_refl)
    as [Hret [Hnone _]].
  split; [exact Hret | exact Hnone].
Defined.

(** Three fresh cakes. *)
Lemma ServeBreakfast_consumer_returns_at_once_witness :
  sb_ret (ServeBreakfast Flip IsBurnt Syrup MakePancakes) = None.
Proof.
  exact (proj1 (ServeBreakfast_consumer_returns_at_once Cake string Flip
                  IsBurnt Syrup MakePancakes eq_refl)).
Defined.

(** Against C9 as stated: three fresh cakes go through stage 1, and the
    stream of stage 2 would hand its first cake to a consumer that receives.
    [ServeBreakfast] returns no error all the same, with nothing received:
    the producer is released by the deferred [cancel()], not by a drained
    stream. *)
Lemma ServeBreakfast_leaves_stream_undrained :
  sb_ret (ServeBreakfast Flip IsBurnt Syrup MakePancakes) = None
  /\ p_emitted
       (s2_out (SyrupPancakes Syrup (ContextWithSpan Background "ServeHotCakes")
                  (fun _ => draining)
                  (map (flipped Flip) (MakePancakes 3))))
     = [syruped Syrup (flipped Flip fresh)]
  /\ exists ready,
       sb_stage2 (ServeBreakfast Flip IsBurnt Syrup MakePancakes) = Some ready
       /\ p_emitted (s2_out ready) = []
       /\ p_exit (s2_out ready) = Cancelled
       /\ p_trace (s2_out ready)
          = [CallSyrup 0; CtxDoneRecv; CloseOut; EventDone "PancakeReady"].
Proof.
  split; [reflexivity|]. split; [reflexivity|].
  eexists. split; [reflexivity|]. repeat split.
Qed.

(** C8 on a batch whose first cake comes out soggy: the goroutine calls
    [fmt.Errorf], which writes nothing, and goes on; what reaches the log is
    the opening and the closing of the event, exactly as for a batch with no
    failure. *)
Lemma SyrupPancakes_soggy_writes_no_log_record :
  p_trace (s2_out (SyrupPancakes Syrup Background (fun _ => draining)
                     [drenched; fresh; fresh]))
  = [CallSyrup 0; FmtErrorf "Ohh no, soggy pancakes!";
     CallSyrup 1; ChanSend 1; CallSyrup 2; ChanSend 2;
     CloseOut; EventDone "PancakeReady"]
  /\ filter is_log_record
       (s2_trace (SyrupPancakes Syrup Background (fun _ => draining)
                    [drenched; fresh; fresh])
        ++ p_trace (s2_out (SyrupPancakes Syrup Background (fun _ => draining)
                              [drenched; fresh; fresh])))
     = [EventBegin "PancakeReady"; EventDone "PancakeReady"]
  /\ filter is_log_record
       (s2_trace (SyrupPancakes Syrup Background (fun _ => draining)
                    [fresh; fresh; fresh])
        ++ p_trace (s2_out (SyrupPancakes Syrup Background (fun _ => draining)
                              [fresh; fresh; fresh])))
     = [EventBegin "PancakeReady"; EventDone "PancakeReady"].
Proof.
  repeat split.
Qed.

(** ** The process: [main] and [InitTracer]

    [main] ends in a [for] loop without exit.  [main n] is what the process
    has done when the loop has completed [n] iterations (all of it, when
    [main] returns before the loop).  [breakfast.MakePancakes] is free to
    return another batch at each call: [batches i] is what it returns during
    the [i]-th run of [ServeBreakfast].  The jaeger configuration and its
    [New] method are outside the sources and are a variable. *)

Definition nl : string := String (Ascii.ascii_of_nat 10) EmptyString.
Definition tab : string := String (Ascii.ascii_of_nat 9) EmptyString.

Record Configuration : Type := {
  sampler_type : string;
  sampler_param : nat;
  reporter_log_spans : bool
}.

Section Main.

Variable Pancake : Type.
Variable PkgError : Type.
Variable Flip : Pancake -> Pancake * option PkgError.
Variable IsBurnt : Pancake -> bool.
Variable Syrup : Pancake -> Pancake * option PkgError.
Variable batches : nat -> nat -> list Pancake.
Variable ErrorText : PkgError -> string.   (* the [Error()] of a package error *)

Variable Tracer : Type.
Variable TracerError : Type.
Variable TracerErrorText : TracerError -> string.
(* [tracerCfg.New(serviceName)]: the tracer, which may be [nil], and the
   error; the closer it also returns is dropped by the caller. *)
Variable New : Configuration -> string -> option Tracer * option TracerError.

Definition InitTracer : option Tracer * option TracerError :=
  let tracerCfg :=
    {| sampler_type := "const"; sampler_param := 1;
       reporter_log_spans := true |} in
  let (tracer, err) := New tracerCfg "Breakfast" in
  match err with
  | Some e => (None, Some e)
  | None => (tracer, None)
  end.

Inductive Output : Type :=
| Printf (s : string)                     (* fmt.Printf, arguments formatted *)
| SetGlobalTracer (t : option Tracer)     (* opentracing.SetGlobalTracer *)
| Sleep (seconds : nat)                   (* time.Sleep *)
| Breakfast (r : Served Pancake PkgError).   (* one call of ServeBreakfast *)

(** [err.Error()], as [%s] prints it. *)
Definition Error (err : error PkgError) : string :=
  match err with
  | FromPackage e => ErrorText e
  | ErrorsNew msg => msg
  end.

(** One iteration of [for { if err := ServeBreakfast(); ... }]. *)
Definition serve_once (i : nat) : list Output :=
  let r := ServeBreakfast Flip IsBurnt Syrup (batches i) in
  [Breakfast r;
   match sb_ret r with
   | Some err => Printf ("Breakfast is ruined! " ++ Error err ++ nl)%string
   | None => Printf ("Breakfast Success!" ++ nl)%string
   end].

Fixpoint serve_loop (i n : nat) : list Output :=
  match n with
  | 0 => []
  | S n' => serve_once i ++ serve_loop (S i) n'
  end.

(** First rendition. *)
Definition main (n : nat) : list Output :=
  Printf ("Starting Jaeger..." ++ nl)%string
  :: (let (tracer, err) := InitTracer in
      match err with
      | Some e =>
          [Printf ("Couldn't init Jaeger Tracer: " ++ TracerErrorText e ++ nl)%string]
      | None =>
          SetGlobalTracer tracer
          :: Printf ("Making Breakfast..." ++ nl)%string
          :: serve_loop 0 n
      end).

(** Second rendition. *)
Definition main' (n : nat) : list Output :=
  Printf ("Start Jaeger by running: " ++ nl ++ nl)%string
  :: Printf ("docker run -e COLLECTOR_ZIPKIN_HTTP_PORT=9411 -p5775:5775/udp -p6831:6831/udp -p6832:6832/udp \"
             ++ nl ++ tab
             ++ "-p5778:5778 -p16686:16686 -p14268:14268 -p9411:9411 jaegertracing/all-in-one:latest")%string
  :: Printf (nl ++ nl ++ "Then visit 'localhost:16686' in your web-browser"
             ++ nl ++ nl)%string
  :: Sleep 5
  :: Printf ("Making Breakfast!" ++ nl)%string
  :: (let (tracer, err) := InitTracer in
      SetGlobalTracer tracer
      :: match err with
         | Some e => [Printf ("Tracer Init Error " ++ TracerErrorText e ++ nl)%string]
         | None => serve_loop 0 n
         end).

Definition is_breakfast (x : Output) : bool :=
  match x with Breakfast _ => true | _ => false end.

Definition is_set_tracer (x : Output) : bool :=
  match x with SetGlobalTracer _ => true | _ => false end.





Lemma InitTracer_spec :
  InitTracer
  = match snd (New {| sampler_type := "const"; sampler_param := 1;
                      reporter_log_spans := true |} "Breakfast") with
    | Some e => (None, Some e)
    | None =>
        (fst (New {| sampler_type := "const"; sampler_param := 1;
                     reporter_log_spans := true |} "Breakfast"), None)
    end.
Proof. unfold InitTracer. destruct (New _ _) as [t [e|]]; reflexivity. Qed.

(** When the tracer cannot be built, neither rendition of [main] serves a
    breakfast, however long one waits.  The first prints the reason and
    returns without installing a tracer; the second has installed the tracer
    before it looks at the error, and what it installs is [nil], even when
    [New] returned a tracer with its error. *)
Theorem main_without_tracer (n : nat) (e : TracerError) :
  snd (New {| sampler_type := "const"; sampler_param := 1;
              reporter_log_spans := true |} "Breakfast") = Some e ->
  main n
  = [Printf ("Starting Jaeger..." ++ nl)%string;
     Printf ("Couldn't init Jaeger Tracer: " ++ TracerErrorText e ++ nl)%string]
  /\ filter is_set_tracer (main' n) = [SetGlobalTracer None]
  /\ filter is_breakfast (main' n) = []
  /\ exists t,
       main' n
       = t ++ [SetGlobalTracer None;
               Printf ("Tracer Init Error " ++ TracerErrorText e ++ nl)%string].
Proof.
  intros He. unfold main, main'. rewrite InitTracer_spec, He.
  split; [reflexivity|]. split; [reflexivity|]. split; [reflexivity|].
  eexists [_; _; _; _; _]. reflexivity.
Qed.


End Main.

Arguments syrup_fails {Pancake PkgError} Syrup c.
Arguments attempted {Pancake PkgError} r.
Arguments Printf {Pancake PkgError Tracer} s.
Arguments is_breakfast {Pancake PkgError Tracer} x.
Arguments main {Pancake PkgError} Flip IsBurnt Syrup batches ErrorText
  {Tracer TracerError} TracerErrorText New n.

(** ** Further runs on the griddle *)

(** Neither case of the [select] can proceed. *)
Definition nobody_there : SelectEnv :=
  {| receiver_ready := false; ctx_done := false; pick := SendCase |}.

(** A configuration whose [New] fails, and one whose [New] succeeds. *)
Definition no_agent (cfg : Configuration) (service : string)
  : option unit * option string :=
  (Some tt, Some "no agent").


Lemma FlipPancakes_success_witness :
  s1_err (FlipPancakes Flip IsBurnt Background [fresh; fresh; fresh]) = None.
Proof.
  exact (f_equal s1_err
           (FlipPancakes_success Cake string Flip IsBurnt Background
              [fresh; fresh; fresh] eq_refl eq_refl)).
Defined.

Lemma FlipPancakes_first_burnt_witness :
  s1_trace (FlipPancakes Flip IsBurnt Background [fresh; charred; charred])
  = [EventBegin "FlipPancakes"; CallFlip 0; CallFlip 1; CallFlip 2;
     TimeSleep; CallIsBurnt 0; CallIsBurnt 1;
     SetError "FlipPancakes" (ErrorsNew "Burnt Pancake");
     EventDone "FlipPancakes"].
Proof.
  exact (FlipPancakes_first_burnt Cake string Flip IsBurnt Background
           [fresh; charred; charred] 1 charred
           eq_refl eq_refl eq_refl eq_refl).
Defined.

Lemma SyrupPancakes_full_pass_witness :
  p_exit (s2_out (SyrupPancakes Syrup Background (fun _ => draining)
                    [drenched; fresh; drenched])) = Exhausted
  /\ p_emitted (s2_out (SyrupPancakes Syrup Background (fun _ => draining)
                          [drenched; fresh; drenched]))
     = [syruped Syrup fresh].
Proof.
  destruct (SyrupPancakes_full_pass Cake string Syrup Background
              (fun _ => draining) drenched [fresh; drenched]
              eq_refl (fun _ => eq_refl))
    as [Hex [Hem _]].
  split; [exact Hex | exact Hem].
Defined.

Lemma SyrupPancakes_all_fail_witness :
  p_emitted (s2_out (SyrupPancakes Syrup Background (fun _ => nobody_there)
                       [drenched; drenched; drenched])) = []
  /\ p_exit (s2_out (SyrupPancakes Syrup Background (fun _ => nobody_there)
                       [drenched; drenched; drenched])) = Exhausted.
Proof.
  pose proof (SyrupPancakes_all_fail Cake string Syrup Background
                (fun _ => nobody_there) [drenched; drenched; drenched]
                eq_refl) as H.
  split; [exact (f_equal p_emitted H) | exact (f_equal p_exit H)].
Defined.

Lemma SyrupPancakes_returns_witness :
  exited (p_exit (s2_out (SyrupPancakes Syrup Background (fun _ => draining)
                            [drenched; fresh; drenched]))) = true.
Proof.
  exact (proj1 (SyrupPancakes_returns Cake string Syrup Background
                  (fun _ => draining) [drenched; fresh; drenched]
                  (fun _ => eq_refl))).
Defined.

Lemma SyrupPancakes_early_exit_at_first_item_witness :
  p_mistakes (s2_out (SyrupPancakes Syrup Background (fun _ => draining)
                        [fresh; drenched; fresh])) = [].
Proof.
  destruct (SyrupPancakes_early_exit_at_first_item Cake string Syrup
              Background (fun _ => draining) [fresh; drenched; fresh] eq_refl)
    as [c [rest [_ [_ H]]]].
  exact (f_equal p_mistakes H).
Defined.

Lemma main_without_tracer_witness :
  main Flip IsBurnt Syrup (fun _ => MakePancakes) (fun e => e)
    (fun e => e) no_agent 5
  = [Printf ("Starting Jaeger..." ++ nl)%string;
     Printf ("Couldn't init Jaeger Tracer: no agent" ++ nl)%string].
Proof.
  exact (proj1 (main_without_tracer Cake string Flip IsBurnt Syrup
                  (fun _ => MakePancakes) (fun e => e) unit string
                  (fun e => e) no_agent 5 "no agent" eq_refl)).
Defined.

